(** * Nebula-Chat: membership, conversation registry and message synchronisation

    A shallow embedding of the chat client (ChatScreen.tsx, NewChat.tsx,
    ChatList.tsx) together with the relational store it talks to (the SQL
    migration: four tables, their constraints and their row-level-security
    policies).

    Modelling conventions.
    - A JavaScript string is its sequence of UTF-16 code units.
    - A UUID is an opaque key with decidable equality (a number);
      [gen_random_uuid()] yields a key that occurs nowhere in the store.
    - A [timestamptz] is a number; [NOW()] reads the store's clock.
    - The store applies the policies as the migration states them: the
      [USING] expression of a [SELECT] policy filters the rows a query
      returns, the [WITH CHECK] expressions of the [INSERT] policies of a
      table are or-ed and must hold of every inserted row.  A sub-select
      inside a policy reads its table as the caller does, under that
      table's own [SELECT] policy and without the rows of the statement
      being checked; a row handed back by [INSERT ... RETURNING] (the
      client's [.insert(...).select()]) must pass the [SELECT] policy of
      its table too.  The [auth] schema is external: foreign keys into
      [auth.users] are not represented.
    - A React handler is a function from the state it reads to the state it
      leaves behind: the store, the session, the toasts shown, the
      navigations performed, the console, and the component's own state. *)

From Stdlib Require Import List NArith Bool Lia String Ascii.
From Stdlib Require Import Sorting.Sorted Sorting.Permutation.
Import ListNotations.

Local Open Scope N_scope.

(** ** JavaScript strings *)

Module Js.

Definition jstr := list N.

(** A source literal (ASCII) as a JavaScript string. *)
Definition lit (s : string) : jstr :=
  map N_of_ascii (list_ascii_of_string s).

(** ECMAScript WhiteSpace and LineTerminator code points, the set
    [String.prototype.trim] strips. *)
Definition isWhiteSpace (c : N) : bool :=
  (c =? 9) || (c =? 10) || (c =? 11) || (c =? 12) || (c =? 13) || (c =? 32)
  || (c =? 160) || (c =? 5760)
  || ((8192 <=? c) && (c <=? 8202))
  || (c =? 8232) || (c =? 8233) || (c =? 8239) || (c =? 8287)
  || (c =? 12288) || (c =? 65279).

Fixpoint trimStart (s : jstr) : jstr :=
  match s with
  | [] => []
  | c :: s' => if isWhiteSpace c then trimStart s' else s
  end.

Definition trimEnd (s : jstr) : jstr := rev (trimStart (rev s)).

Definition trim (s : jstr) : jstr := trimEnd (trimStart s).

(** Truthiness of a string: the empty string is falsy. *)
Definition truthy (s : jstr) : bool :=
  match s with [] => false | _ :: _ => true end.

(** High (lead) and low (trail) surrogate code units. *)
Definition is_high_surrogate (c : N) : bool := (55296 <=? c) && (c <=? 56319).
Definition is_low_surrogate (c : N) : bool := (56320 <=? c) && (c <=? 57343).

(** Well-formed UTF-16: every high surrogate is followed by a low one and
    no low surrogate stands alone. *)
Fixpoint well_formed (s : jstr) : bool :=
  match s with
  | [] => true
  | c :: s' =>
      if is_high_surrogate c
      then match s' with
           | d :: s'' => is_low_surrogate d && well_formed s''
           | [] => false
           end
      else negb (is_low_surrogate c) && well_formed s'
  end.

(** Text a [TEXT] column can hold: well-formed and free of U+0000. *)
Definition storable (s : jstr) : bool :=
  negb (existsb (N.eqb 0) s) && well_formed s.

(** [x || d] where [x] is a string or null/undefined. *)
Definition or_else (x : option jstr) (d : jstr) : jstr :=
  match x with
  | Some s => if truthy s then s else d
  | None => d
  end.

End Js.

Import Js.

(** ** The relational store (SQL migration) *)

Definition uuid := N.
Definition timestamptz := N.

(** [type TEXT NOT NULL CHECK (type IN ('dm', 'group'))] *)
Inductive chat_type := dm | group.

Definition chat_type_eqb (a b : chat_type) : bool :=
  match a, b with
  | dm, dm => true
  | group, group => true
  | _, _ => false
  end.

Module Profiles.
Record row := mk {
  id : uuid;
  username : jstr;
  display_name : jstr;
  avatar_url : option jstr;
  created_at : timestamptz;
  updated_at : timestamptz
}.
End Profiles.

Module Chats.
Record row := mk {
  id : uuid;
  type : chat_type;
  name : option jstr;
  avatar_url : option jstr;
  created_by : option uuid;
  created_at : timestamptz;
  updated_at : timestamptz
}.
End Chats.

Module ChatMembers.
Record row := mk {
  id : uuid;
  chat_id : uuid;
  user_id : uuid;
  joined_at : timestamptz
}.
End ChatMembers.

Module Messages.
Record row := mk {
  id : uuid;
  chat_id : uuid;
  sender_id : uuid;
  content : jstr;
  created_at : timestamptz
}.
End Messages.

Record DB := mkDB {
  profiles : list Profiles.row;
  chats : list Chats.row;
  chat_members : list ChatMembers.row;
  messages : list Messages.row;
  now : timestamptz
}.

(** Errors the store reports back to the client. *)
Inductive pg_error :=
| rls_violation (table : string)
| unique_violation (constraint : string)
| foreign_key_violation (constraint : string)
| invalid_text
| no_single_row.

(** The [{ data, error }] pair every client query resolves to. *)
Record response (A : Type) := mkResponse {
  data : option A;
  error : option pg_error
}.
Arguments mkResponse {A} _ _.
Arguments data {A} _.
Arguments error {A} _.

Definition ok {A} (x : A) : response A := mkResponse (Some x) None.
Definition failed {A} (e : pg_error) : response A := mkResponse None (Some e).

(** [.single()]: exactly one row, otherwise no data and an error. *)
Definition single {A} (rows : list A) : response A :=
  match rows with
  | [x] => ok x
  | _ => failed no_single_row
  end.

Module Store.

(** [auth.uid() = x]; with no session [auth.uid()] is NULL and the
    comparison is not true. *)
Definition auth_uid_is (auth : option uuid) (x : uuid) : bool :=
  match auth with
  | Some u => u =? x
  | None => false
  end.

Definition auth_uid_is_opt (auth : option uuid) (x : option uuid) : bool :=
  match x with
  | Some y => auth_uid_is auth y
  | None => false
  end.

(** The membership relation stored in [chat_members]. *)
Definition isMember (db : DB) (chat principal : uuid) : bool :=
  existsb (fun cm => (ChatMembers.chat_id cm =? chat)
                     && (ChatMembers.user_id cm =? principal))
          (chat_members db).

Definition membersOf (db : DB) (chat : uuid) : list uuid :=
  map ChatMembers.user_id
      (filter (fun cm => ChatMembers.chat_id cm =? chat) (chat_members db)).

(** *** Row-level-security policies *)

(** "Profiles are viewable by everyone" *)
Definition profiles_select (auth : option uuid) (p : Profiles.row) : bool :=
  true.

(** "Users can view their own chat memberships" *)
Definition chat_members_select (auth : option uuid) (cm : ChatMembers.row)
  : bool :=
  auth_uid_is auth (ChatMembers.user_id cm).

(** "Users can view chats they are members of" *)
Definition chats_select (db : DB) (auth : option uuid) (c : Chats.row)
  : bool :=
  existsb (fun cm => (ChatMembers.chat_id cm =? Chats.id c)
                     && auth_uid_is auth (ChatMembers.user_id cm))
          (chat_members db).

(** "Users can insert chat memberships" or "Chat creators can add members";
    the sub-select of the second policy finds only the chats the caller can
    see. *)
Definition chat_members_insert (db : DB) (auth : option uuid)
           (cm : ChatMembers.row) : bool :=
  auth_uid_is auth (ChatMembers.user_id cm)
  || existsb (fun c => chats_select db auth c
                       && (Chats.id c =? ChatMembers.chat_id cm)
                       && auth_uid_is_opt auth (Chats.created_by c))
             (chats db).

(** "Users can create chats" *)
Definition chats_insert (auth : option uuid) (c : Chats.row) : bool :=
  auth_uid_is_opt auth (Chats.created_by c).

(** "Users can view messages in their chats" *)
Definition messages_select (db : DB) (auth : option uuid) (m : Messages.row)
  : bool :=
  existsb (fun cm => (ChatMembers.chat_id cm =? Messages.chat_id m)
                     && auth_uid_is auth (ChatMembers.user_id cm))
          (chat_members db).

(** "Users can insert messages in their chats" *)
Definition messages_insert (db : DB) (auth : option uuid) (m : Messages.row)
  : bool :=
  auth_uid_is auth (Messages.sender_id m)
  && existsb (fun cm => (ChatMembers.chat_id cm =? Messages.chat_id m)
                        && auth_uid_is auth (ChatMembers.user_id cm))
             (chat_members db).

(** *** Key generation *)

Definition all_keys (db : DB) : list uuid :=
  map Profiles.id (profiles db)
  ++ map Chats.id (chats db)
  ++ map ChatMembers.id (chat_members db)
  ++ map ChatMembers.chat_id (chat_members db)
  ++ map ChatMembers.user_id (chat_members db)
  ++ map Messages.id (messages db)
  ++ map Messages.chat_id (messages db)
  ++ map Messages.sender_id (messages db).

Definition max_key (l : list uuid) : uuid := fold_right N.max 0 l.

(** [gen_random_uuid()]: a key that occurs nowhere in the store. *)
Definition gen_random_uuid (db : DB) : uuid := N.succ (max_key (all_keys db)).

(** *** ORDER BY created_at ASC *)

Fixpoint insert_by_created_at (m : Messages.row) (l : list Messages.row)
  : list Messages.row :=
  match l with
  | [] => [m]
  | x :: l' =>
      if Messages.created_at m <? Messages.created_at x
      then m :: l
      else x :: insert_by_created_at m l'
  end.

Fixpoint order_by_created_at (l : list Messages.row) : list Messages.row :=
  match l with
  | [] => []
  | m :: l' => insert_by_created_at m (order_by_created_at l')
  end.

(** *** Queries issued by the client *)

(** [from('messages').select('*').eq('chat_id', chatId)
      .order('created_at', { ascending: true })] *)
Definition select_messages (db : DB) (auth : option uuid) (chatId : uuid)
  : response (list Messages.row) :=
  ok (order_by_created_at
        (filter (fun m => messages_select db auth m
                          && (Messages.chat_id m =? chatId))
                (messages db))).

(** [from('profiles').select('username, display_name, avatar_url')
      .eq('id', id).single()] *)
Definition select_profile (db : DB) (auth : option uuid) (id : uuid)
  : response Profiles.row :=
  single (filter (fun p => profiles_select auth p && (Profiles.id p =? id))
                 (profiles db)).

(** [from('chat_members').select('chat_id, chats!inner(id, type)')
      .eq('user_id', uid)]: the caller's membership rows, each joined with
    the chat it references; a row whose chat is not visible is left out. *)
Definition select_memberships_with_chat (db : DB) (auth : option uuid)
           (uid : uuid) : response (list (ChatMembers.row * Chats.row)) :=
  ok (flat_map
        (fun cm =>
           match filter (fun c => chats_select db auth c
                                  && (Chats.id c =? ChatMembers.chat_id cm))
                        (chats db) with
           | c :: _ => [(cm, c)]
           | [] => []
           end)
        (filter (fun cm => chat_members_select auth cm
                           && (ChatMembers.user_id cm =? uid))
                (chat_members db))).

(** [from('chat_members').select('user_id').eq('chat_id', chat)
      .neq('user_id', uid)] *)
Definition select_other_members (db : DB) (auth : option uuid)
           (chat uid : uuid) : response (list uuid) :=
  ok (map ChatMembers.user_id
          (filter (fun cm => chat_members_select auth cm
                             && (ChatMembers.chat_id cm =? chat)
                             && negb (ChatMembers.user_id cm =? uid))
                  (chat_members db))).

(** [from('chats').insert({ type, name, created_by }).select().single()]:
    the new row must pass "Users can create chats" and, being handed back,
    "Users can view chats they are members of"; either failure is reported
    as a violation of the row-level security of [chats]. *)
Definition insert_chat (db : DB) (auth : option uuid) (type : chat_type)
           (name : option jstr) (created_by : uuid)
  : response Chats.row * DB :=
  let c := Chats.mk (gen_random_uuid db) type name None (Some created_by)
                    (now db) (now db) in
  if chats_insert auth c && chats_select db auth c
  then (ok c,
        mkDB (profiles db) (chats db ++ [c]) (chat_members db) (messages db)
             (N.succ (now db)))
  else (failed (rls_violation "chats"), db).

(** One row of a [chat_members] insert: policy, foreign key on [chat_id],
    then [UNIQUE(chat_id, user_id)].  The policy is evaluated on [before],
    the store as the statement found it; the constraints see the rows the
    statement has added so far. *)
Definition insert_chat_member (before db : DB) (auth : option uuid)
           (chat user : uuid) : pg_error + DB :=
  let cm := ChatMembers.mk (gen_random_uuid db) chat user (now db) in
  if negb (chat_members_insert before auth cm)
  then inl (rls_violation "chat_members")
  else if negb (existsb (fun c => Chats.id c =? chat) (chats db))
  then inl (foreign_key_violation "chat_members_chat_id_fkey")
  else if isMember db chat user
  then inl (unique_violation "chat_members_chat_id_user_id_key")
  else inr (mkDB (profiles db) (chats db) (chat_members db ++ [cm])
                 (messages db) (now db)).

Fixpoint insert_chat_member_rows (before db : DB) (auth : option uuid)
         (rows : list (uuid * uuid)) : pg_error + DB :=
  match rows with
  | [] => inr db
  | (chat, user) :: rows' =>
      match insert_chat_member before db auth chat user with
      | inl e => inl e
      | inr db' => insert_chat_member_rows before db' auth rows'
      end
  end.

(** [from('chat_members').insert(rows)]: one statement, all rows or none. *)
Definition insert_chat_members (db : DB) (auth : option uuid)
           (rows : list (uuid * uuid)) : response unit * DB :=
  match insert_chat_member_rows db db auth rows with
  | inl e => (failed e, db)
  | inr db' =>
      (ok tt,
       mkDB (profiles db') (chats db') (chat_members db') (messages db')
            (N.succ (now db')))
  end.

(** [from('messages').insert({ chat_id, sender_id, content })]; content
    that a [TEXT] column cannot hold is refused. *)
Definition insert_message (db : DB) (auth : option uuid)
           (chat sender : uuid) (content : jstr) : response unit * DB :=
  let m := Messages.mk (gen_random_uuid db) chat sender content (now db) in
  if negb (messages_insert db auth m)
  then (failed (rls_violation "messages"), db)
  else if negb (existsb (fun c => Chats.id c =? chat) (chats db))
  then (failed (foreign_key_violation "messages_chat_id_fkey"), db)
  else if negb (storable content)
  then (failed invalid_text, db)
  else (ok tt,
        mkDB (profiles db) (chats db) (chat_members db) (messages db ++ [m])
             (N.succ (now db))).

(** *** ORDER BY created_at DESC *)

Fixpoint insert_by_created_at_desc (m : Messages.row) (l : list Messages.row)
  : list Messages.row :=
  match l with
  | [] => [m]
  | x :: l' =>
      if Messages.created_at x <? Messages.created_at m
      then m :: l
      else x :: insert_by_created_at_desc m l'
  end.

Fixpoint order_by_created_at_desc (l : list Messages.row)
  : list Messages.row :=
  match l with
  | [] => []
  | m :: l' => insert_by_created_at_desc m (order_by_created_at_desc l')
  end.

(** *** Further queries issued by the client *)

(** [from('messages').select('content, created_at').eq('chat_id', chat)
      .order('created_at', { ascending: false }).limit(1).single()] *)
Definition select_last_message (db : DB) (auth : option uuid) (chat : uuid)
  : response (jstr * timestamptz) :=
  single
    (map (fun m => (Messages.content m, Messages.created_at m))
         (firstn 1
            (order_by_created_at_desc
               (filter (fun m => messages_select db auth m
                                 && (Messages.chat_id m =? chat))
                       (messages db))))).

(** [from('chats').select('*').eq('id', chatId).single()] *)
Definition select_chat (db : DB) (auth : option uuid) (chatId : uuid)
  : response Chats.row :=
  single (filter (fun c => chats_select db auth c && (Chats.id c =? chatId))
                 (chats db)).

(** [from('chat_members')
      .select('chat_id, chats(id, type, name, avatar_url, updated_at)')
      .eq('user_id', uid)]: the caller's membership rows, each with the chat
    it references, or null where no such chat is visible. *)
Definition select_memberships (db : DB) (auth : option uuid) (uid : uuid)
  : response (list (ChatMembers.row * option Chats.row)) :=
  ok (map
        (fun cm =>
           (cm,
            hd_error
              (filter (fun c => chats_select db auth c
                                && (Chats.id c =? ChatMembers.chat_id cm))
                      (chats db))))
        (filter (fun cm => chat_members_select auth cm
                           && (ChatMembers.user_id cm =? uid))
                (chat_members db))).

(** [from('chat_members')
      .select('user_id, profiles(username, display_name, avatar_url)')
      .eq('chat_id', chat).neq('user_id', uid).single()]: the one other
    member of a chat with the profile of that key, if any. *)
Definition select_other_member (db : DB) (auth : option uuid)
           (chat uid : uuid) : response (uuid * option Profiles.row) :=
  single
    (map
       (fun cm =>
          (ChatMembers.user_id cm,
           hd_error
             (filter (fun p => profiles_select auth p
                               && (Profiles.id p =? ChatMembers.user_id cm))
                     (profiles db))))
       (filter (fun cm => chat_members_select auth cm
                          && (ChatMembers.chat_id cm =? chat)
                          && negb (ChatMembers.user_id cm =? uid))
               (chat_members db))).

End Store.

(** ** What a handler can observe and change outside its component *)

(** [navigate('/')] and [navigate(`/chat/${id}`)]. *)
Inductive route := route_home | route_chat (chatId : uuid).

(** A toast's description is a source literal or [error.message]. *)
Inductive toast_text := text (s : jstr) | error_message (e : pg_error).

Record Toast := mkToast {
  title : jstr;
  description : toast_text;
  variant : jstr
}.

Definition error_toast (d : toast_text) : Toast :=
  mkToast (lit "Error") d (lit "destructive").

Record World := mkWorld {
  store : DB;
  session : option uuid;          (* supabase.auth.getUser() *)
  toasts : list Toast;            (* most recent first *)
  navigated : list route;         (* most recent first *)
  console : list (jstr * pg_error)
}.

Definition with_store (w : World) (d : DB) : World :=
  mkWorld d (session w) (toasts w) (navigated w) (console w).

Definition toast (w : World) (t : Toast) : World :=
  mkWorld (store w) (session w) (t :: toasts w) (navigated w) (console w).

Definition navigate (w : World) (r : route) : World :=
  mkWorld (store w) (session w) (toasts w) (r :: navigated w) (console w).

Definition console_error (w : World) (what : jstr) (e : pg_error) : World :=
  mkWorld (store w) (session w) (toasts w) (navigated w)
          ((what, e) :: console w).

(** The [username, display_name, avatar_url] projection of a profile. *)
Record UserInfo := mkUserInfo {
  username : jstr;
  display_name : jstr;
  avatar_url : option jstr
}.

Definition user_info (p : Profiles.row) : UserInfo :=
  mkUserInfo (Profiles.username p) (Profiles.display_name p)
             (Profiles.avatar_url p).

(** [u.avatar_url] of a resolved user. *)
Definition user_avatar_url (u : UserInfo) : option jstr := avatar_url u.

(** ** ChatList.tsx *)

Module ChatList.

Record Chat := mkChat {
  id : uuid;
  type : chat_type;
  name : option jstr;
  avatar_url : option jstr;
  updated_at : timestamptz;
  lastMessage : option (jstr * timestamptz);
  otherUser : option UserInfo
}.

Definition getChatName (chat : Chat) : jstr :=
  match type chat with
  | group => or_else (name chat) (lit "Unnamed Group")
  | dm => or_else (option_map display_name (otherUser chat))
                  (lit "Unknown User")
  end.

Definition getChatAvatar (chat : Chat) : option jstr :=
  match type chat with
  | group => avatar_url chat
  | dm =>
      match otherUser chat with
      | Some u => user_avatar_url u
      | None => None
      end
  end.

Record State := mkState {
  chats : list Chat;
  loading : bool
}.

Definition initial : State := mkState [] true.

(** What the [catch] of [loadChats] can receive: an error of the store or
    the TypeError of reading a property of null. *)
Inductive caught := store_error (e : pg_error) | type_error.

(** The body of the [map] in [loadChats], for one membership row; [None]
    when [chat.id] is read off a null [member.chats]. *)
Definition chat_details (w : World) (user : uuid)
           (member : ChatMembers.row * option Chats.row) : option Chat :=
  match snd member with
  | None => None
  | Some chat =>
      let lastMessage :=
        data (Store.select_last_message (store w) (session w)
                                        (Chats.id chat)) in
      let otherUser :=
        match Chats.type chat with
        | dm =>
            match data (Store.select_other_member
                          (store w) (session w) (Chats.id chat) user) with
            | Some otherMember => option_map user_info (snd otherMember)
            | None => None
            end
        | group => None
        end in
      Some (mkChat (Chats.id chat) (Chats.type chat) (Chats.name chat)
                   (Chats.avatar_url chat) (Chats.updated_at chat)
                   lastMessage otherUser)
  end.

(** [Promise.all]: every result, or the first failure. *)
Fixpoint all {A} (l : list (option A)) : option (list A) :=
  match l with
  | [] => Some []
  | None :: _ => None
  | Some x :: l' =>
      match all l' with
      | Some xs => Some (x :: xs)
      | None => None
      end
  end.

(** [loadChats]: the new component state and what was logged with
    "Error loading chats:", if anything. *)
Definition loadChats (w : World) (st : State) : State * option caught :=
  match session w with
  | None => (mkState (chats st) false, None)
  | Some user =>
      let r := Store.select_memberships (store w) (session w) user in
      match error r with
      | Some membersError =>
          (mkState (chats st) false, Some (store_error membersError))
      | None =>
          let chatMembers := match data r with Some l => l | None => [] end in
          match all (map (chat_details w user) chatMembers) with
          | None => (mkState (chats st) false, Some type_error)
          | Some chatsWithDetails => (mkState chatsWithDetails false, None)
          end
      end
  end.

End ChatList.

(** ** ChatScreen.tsx *)

Module ChatScreen.

Record Message := mkMessage {
  row : Messages.row;             (* ...msg *)
  sender : option UserInfo
}.

Record Chat := mkChat {
  id : uuid;
  type : chat_type;
  name : option jstr;
  avatar_url : option jstr;
  otherUser : option UserInfo
}.

Record State := mkState {
  chat : option Chat;
  messages : list Message;
  newMessage : jstr;
  loading : bool;
  sending : bool;
  currentUserId : option uuid
}.

Definition initial : State := mkState None [] [] true false None.

Definition setMessages (st : State) (ms : list Message) : State :=
  mkState (chat st) ms (newMessage st) (loading st) (sending st)
          (currentUserId st).

Definition setNewMessage (st : State) (s : jstr) : State :=
  mkState (chat st) (messages st) s (loading st) (sending st)
          (currentUserId st).

Definition setSending (st : State) (b : bool) : State :=
  mkState (chat st) (messages st) (newMessage st) (loading st) b
          (currentUserId st).

(** "Fetch sender info": only [data] of the response is read. *)
Definition fetch_sender (w : World) (msg : Messages.row) : Message :=
  mkMessage msg
    (option_map user_info
       (data (Store.select_profile (store w) (session w)
                                   (Messages.sender_id msg)))).

Definition loadMessages (w : World) (chatId : uuid) (st : State)
  : World * State :=
  let r := Store.select_messages (store w) (session w) chatId in
  match error r with
  | Some messagesError =>
      (console_error w (lit "Error loading messages:") messagesError, st)
  | None =>
      let messagesData := match data r with Some l => l | None => [] end in
      let messagesWithSenders := map (fetch_sender w) messagesData in
      (w, setMessages st messagesWithSenders)
  end.

(** The handler of the realtime subscription, run on one INSERT payload. *)
Definition on_insert (w : World) (st : State) (newMsg : Messages.row)
  : State :=
  setMessages st (messages st ++ [fetch_sender w newMsg]).

(** The view after a run of live events; each event comes with the world
    its sender lookup is answered in. *)
Definition live (st : State) (events : list (World * Messages.row)) : State :=
  fold_left (fun s e => on_insert (fst e) s (snd e)) events st.

Definition sendMessage (w : World) (chatId : uuid) (st : State)
  : World * State :=
  if negb (truthy (trim (newMessage st))) || sending st then (w, st)
  else
    let st1 := setSending st true in
    match session w with
    | None => (w, setSending st1 false)
    | Some user =>
        let '(r, d) := Store.insert_message (store w) (session w) chatId user
                                            (trim (newMessage st)) in
        match error r with
        | Some e =>
            (toast (with_store w d) (error_toast (error_message e)),
             setSending st1 false)
        | None =>
            (with_store w d, setSending (setNewMessage st1 []) false)
        end
    end.

Definition getChatName (st : State) : jstr :=
  match chat st with
  | None => []
  | Some c =>
      match type c with
      | group => or_else (name c) (lit "Unnamed Group")
      | dm => or_else (option_map display_name (otherUser c))
                      (lit "Unknown User")
      end
  end.

Definition getChatAvatar (st : State) : option jstr :=
  match chat st with
  | None => None
  | Some c =>
      match type c with
      | group => avatar_url c
      | dm =>
          match otherUser c with
          | Some u => user_avatar_url u
          | None => None
          end
      end
  end.

Definition setChat (st : State) (c : option Chat) : State :=
  mkState c (messages st) (newMessage st) (loading st) (sending st)
          (currentUserId st).

Definition setLoading (st : State) (b : bool) : State :=
  mkState (chat st) (messages st) (newMessage st) b (sending st)
          (currentUserId st).

Definition setCurrentUserId (st : State) (u : option uuid) : State :=
  mkState (chat st) (messages st) (newMessage st) (loading st) (sending st) u.

(** The [catch] of [loadChat]. *)
Definition loadChat_failed (w : World) (e : pg_error) : World :=
  navigate
    (toast (console_error w (lit "Error loading chat:") e)
           (error_toast (text (lit "Failed to load chat"))))
    route_home.

Definition loadChat (w : World) (chatId : uuid) (st : State)
  : World * State :=
  match session w with
  | None => (w, setLoading st false)
  | Some user =>
      let st1 := setCurrentUserId st (Some user) in
      let r := Store.select_chat (store w) (session w) chatId in
      match error r, data r with
      | Some chatError, _ => (loadChat_failed w chatError, setLoading st1 false)
      | None, None => (loadChat_failed w no_single_row, setLoading st1 false)
      | None, Some chatData =>
          let otherUser :=
            match Chats.type chatData with
            | dm =>
                match data (Store.select_other_member
                              (store w) (session w) chatId user) with
                | Some otherMember => option_map user_info (snd otherMember)
                | None => None
                end
            | group => None
            end in
          (w,
           setLoading
             (setChat st1
                (Some (mkChat (Chats.id chatData) (Chats.type chatData)
                              (Chats.name chatData) (Chats.avatar_url chatData)
                              otherUser)))
             false)
      end
  end.

End ChatScreen.

(** ** NewChat.tsx *)

Module NewChat.

Record State := mkState {
  searchQuery : jstr;
  users : list Profiles.row;
  loading : bool;
  selectedUsers : list Profiles.row;
  groupName : jstr;
  creatingChat : bool
}.

Definition setUsers (st : State) (us : list Profiles.row) : State :=
  mkState (searchQuery st) us (loading st) (selectedUsers st) (groupName st)
          (creatingChat st).

Definition setLoading (st : State) (b : bool) : State :=
  mkState (searchQuery st) (users st) b (selectedUsers st) (groupName st)
          (creatingChat st).

Definition setSelectedUsers (st : State) (us : list Profiles.row) : State :=
  mkState (searchQuery st) (users st) (loading st) us (groupName st)
          (creatingChat st).

Definition setCreatingChat (st : State) (b : bool) : State :=
  mkState (searchQuery st) (users st) (loading st) (selectedUsers st)
          (groupName st) b.

(** [searchUsers]; [ilike username pattern] is the store's case-insensitive
    pattern match and is left to the caller. *)
Definition searchUsers (ilike : jstr -> jstr -> bool) (w : World) (st : State)
  : State :=
  let st1 := setLoading st true in
  match session w with
  | None => setLoading st1 false
  | Some user =>
      let pattern := lit "%" ++ searchQuery st ++ lit "%" in
      let rows :=
        firstn 20
          (filter (fun p => Store.profiles_select (session w) p
                            && ilike (Profiles.username p) pattern
                            && negb (Profiles.id p =? user))
                  (profiles (store w))) in
      setLoading (setUsers st1 rows) false
  end.

(** The loop of [createDM] over [existingChats]: the first membership whose
    chat is a DM and whose other members are exactly [otherUser]. *)
Fixpoint find_existing_dm (w : World) (user other : uuid)
         (existingChats : list (ChatMembers.row * Chats.row)) : option uuid :=
  match existingChats with
  | [] => None
  | (member, c) :: rest =>
      if chat_type_eqb (Chats.type c) dm
      then
        match data (Store.select_other_members
                      (store w) (session w) (ChatMembers.chat_id member) user)
        with
        | Some [x] =>
            if x =? other then Some (ChatMembers.chat_id member)
            else find_existing_dm w user other rest
        | _ => find_existing_dm w user other rest
        end
      else find_existing_dm w user other rest
  end.

Definition createDM (w : World) (st : State) (otherUser : Profiles.row)
  : World * State :=
  let st1 := setCreatingChat st true in
  match session w with
  | None => (w, setCreatingChat st1 false)
  | Some user =>
      let existingChats :=
        match data (Store.select_memberships_with_chat
                      (store w) (session w) user) with
        | Some l => l
        | None => []
        end in
      match find_existing_dm w user (Profiles.id otherUser) existingChats with
      | Some chat_id =>
          (navigate w (route_chat chat_id), setCreatingChat st1 false)
      | None =>
          let '(r, d1) := Store.insert_chat (store w) (session w) dm None
                                            user in
          match error r, data r with
          | Some chatError, _ =>
              (toast (with_store w d1) (error_toast (error_message chatError)),
               setCreatingChat st1 false)
          | None, None =>
              (toast (with_store w d1)
                     (error_toast (error_message no_single_row)),
               setCreatingChat st1 false)
          | None, Some newChat =>
              let '(r2, d2) :=
                Store.insert_chat_members d1 (session w)
                  [(Chats.id newChat, user);
                   (Chats.id newChat, Profiles.id otherUser)] in
              match error r2 with
              | Some membersError =>
                  (toast (with_store w d2)
                         (error_toast (error_message membersError)),
                   setCreatingChat st1 false)
              | None =>
                  (navigate (with_store w d2) (route_chat (Chats.id newChat)),
                   setCreatingChat st1 false)
              end
          end
      end
  end.

Definition createGroup (w : World) (st : State) : World * State :=
  match selectedUsers st with
  | [] =>
      (toast w (error_toast (text (lit "Please select at least one user"))),
       st)
  | _ :: _ =>
      let st1 := setCreatingChat st true in
      match session w with
      | None => (w, setCreatingChat st1 false)
      | Some user =>
          let '(r, d1) :=
            Store.insert_chat (store w) (session w) group
              (Some (or_else (Some (groupName st)) (lit "New Group"))) user in
          match error r, data r with
          | Some chatError, _ =>
              (toast (with_store w d1) (error_toast (error_message chatError)),
               setCreatingChat st1 false)
          | None, None =>
              (toast (with_store w d1)
                     (error_toast (error_message no_single_row)),
               setCreatingChat st1 false)
          | None, Some newChat =>
              let members :=
                (Chats.id newChat, user)
                :: map (fun u => (Chats.id newChat, Profiles.id u))
                       (selectedUsers st) in
              let '(r2, d2) :=
                Store.insert_chat_members d1 (session w) members in
              match error r2 with
              | Some membersError =>
                  (toast (with_store w d2)
                         (error_toast (error_message membersError)),
                   setCreatingChat st1 false)
              | None =>
                  (navigate (with_store w d2) (route_chat (Chats.id newChat)),
                   setCreatingChat st1 false)
              end
          end
      end
  end.

Definition toggleUserSelection (st : State) (user : Profiles.row) : State :=
  if existsb (fun u => Profiles.id u =? Profiles.id user) (selectedUsers st)
  then setSelectedUsers st
         (filter (fun u => negb (Profiles.id u =? Profiles.id user))
                 (selectedUsers st))
  else setSelectedUsers st (selectedUsers st ++ [user]).

(** The checkbox of a listed user:
    [checked={selectedUsers.some(u => u.id === user.id)}]. *)
Definition checked (st : State) (user : Profiles.row) : bool :=
  existsb (fun u => Profiles.id u =? Profiles.id user) (selectedUsers st).

End NewChat.

(** ** Registration: the [handle_new_user] trigger and the [profiles]
    constraints *)

Module Signup.

(** [CONSTRAINT username_length]; every string that also passes
    [username_format] is ASCII, so its length in characters is its length in
    code units. *)
Definition username_length (s : jstr) : bool :=
  (3 <=? N.of_nat (List.length s)) && (N.of_nat (List.length s) <=? 30).

Definition is_username_char (c : N) : bool :=
  ((97 <=? c) && (c <=? 122)) || ((65 <=? c) && (c <=? 90))
  || ((48 <=? c) && (c <=? 57)) || (c =? 95).

(** [CONSTRAINT username_format CHECK (username ~ '^[a-zA-Z0-9_]+$')] *)
Definition username_format (s : jstr) : bool :=
  truthy s && forallb is_username_char s.

(** One lowercase hexadecimal digit. *)
Definition hex_digit (n : N) : N := if n <? 10 then 48 + n else 87 + n.

(** The hexadecimal digits of a 128-bit key from position [i] on, [k] of
    them, most significant first ([i] counts from the left, 0 to 31). *)
Fixpoint hex_digits (u : uuid) (i : N) (k : nat) : jstr :=
  match k with
  | O => []
  | S k' => hex_digit ((u / 16 ^ (31 - i)) mod 16) :: hex_digits u (N.succ i) k'
  end.

(** [id::text]: 8-4-4-4-12 hexadecimal digits. *)
Definition uuid_text (u : uuid) : jstr :=
  hex_digits u 0 8 ++ lit "-" ++ hex_digits u 8 4 ++ lit "-"
  ++ hex_digits u 12 4 ++ lit "-" ++ hex_digits u 16 4 ++ lit "-"
  ++ hex_digits u 20 12.

Fixpoint text_eqb (a b : jstr) : bool :=
  match a, b with
  | [], [] => true
  | x :: a', y :: b' => (x =? y) && text_eqb a' b'
  | _, _ => false
  end.

(** [COALESCE(x, d)] *)
Definition coalesce (x : option jstr) (d : jstr) : jstr :=
  match x with Some s => s | None => d end.

Inductive rejected :=
| profiles_pkey
| profiles_username_key
| username_length_check
| username_format_check.

(** [handle_new_user()], fired after the insert of [auth.users] row [id]
    with the given [raw_user_meta_data ->> 'username'] and
    [->> 'display_name']: the profile row it builds and the outcome of
    inserting it. *)
Definition new_profile (db : DB) (id : uuid) (username display_name : option jstr)
  : Profiles.row :=
  Profiles.mk id
    (coalesce username (lit "user_" ++ firstn 8 (uuid_text id)))
    (coalesce display_name (lit "User"))
    None (now db) (now db).

Definition handle_new_user (db : DB) (id : uuid)
           (username display_name : option jstr) : rejected + DB :=
  let p := new_profile db id username display_name in
  if negb (username_format (Profiles.username p))
  then inl username_format_check
  else if negb (username_length (Profiles.username p))
  then inl username_length_check
  else if existsb (fun q => Profiles.id q =? id) (profiles db)
  then inl profiles_pkey
  else if existsb (fun q => text_eqb (Profiles.username q)
                                     (Profiles.username p))
                  (profiles db)
  then inl profiles_username_key
  else inr (mkDB (profiles db ++ [p]) (chats db) (chat_members db)
                 (messages db) (N.succ (now db))).

End Signup.

(** ** Predicates the properties are stated with *)

Definition created_le (a b : Messages.row) : Prop :=
  Messages.created_at a <= Messages.created_at b.

(** Every DM in the store has exactly two members, and they differ. *)
Definition dm_has_two_members (db : DB) : Prop :=
  forall c, In c (chats db) -> Chats.type c = dm ->
    exists a b, a <> b /\ Store.membersOf db (Chats.id c) = [a; b].

(** The ids shown in a conversation view, in display order. *)
Definition view_ids (st : ChatScreen.State) : list uuid :=
  map (fun m => Messages.id (ChatScreen.row m)) (ChatScreen.messages st).

(** A string that does not begin, respectively end, with a code unit
    [trim] strips. *)
Definition starts_clean (s : jstr) : Prop :=
  match s with
  | [] => True
  | c :: _ => isWhiteSpace c = false
  end.

Definition ends_clean (s : jstr) : Prop := starts_clean (rev s).

(** The row [sendMessage] asks the store to add. *)
Definition sent_message (w : World) (chatId user : uuid)
           (st : ChatScreen.State) : Messages.row :=
  Messages.mk (Store.gen_random_uuid (store w)) chatId user
              (trim (ChatScreen.newMessage st)) (now (store w)).

(** [chat_members.chat_id REFERENCES chats(id)]: every membership row
    points to a chat of the store. *)
Definition memberships_reference_chats (db : DB) : Prop :=
  forall cm, In cm (chat_members db) ->
    exists c, In c (chats db) /\ Chats.id c = ChatMembers.chat_id cm.

(** The first chat row with the key a membership row refers to. *)
Definition chat_of (db : DB) (cm : ChatMembers.row) : option Chats.row :=
  hd_error (filter (fun c => Chats.id c =? ChatMembers.chat_id cm) (chats db)).

(** The list entry [loadChats] builds for a chat row the caller is a member
    of. *)
Definition listed (w : World) (c : Chats.row) : ChatList.Chat :=
  ChatList.mkChat (Chats.id c) (Chats.type c) (Chats.name c)
                  (Chats.avatar_url c) (Chats.updated_at c)
                  (data (Store.select_last_message (store w) (session w)
                                                   (Chats.id c)))
                  None.

(** The caller's membership rows, in the order of the table. *)
Definition memberships (db : DB) (user : uuid) : list ChatMembers.row :=
  filter (fun cm => ChatMembers.user_id cm =? user) (chat_members db).

(** ** Sample stores and sessions *)

Module Sample.

Definition alice : Profiles.row :=
  Profiles.mk 1 (lit "alice") (lit "Alice") None 0 0.
Definition bob : Profiles.row :=
  Profiles.mk 2 (lit "bob_") (lit "Bob") None 0 0.
Definition carol : Profiles.row :=
  Profiles.mk 3 (lit "carol") (lit "Carol") None 0 0.

(** Three registered principals, no conversation yet. *)
Definition db_fresh : DB := mkDB [alice; bob; carol] [] [] [] 100.

Definition hello : Messages.row := Messages.mk 20 10 1 (lit "hello") 50.
Definition hi : Messages.row := Messages.mk 21 10 2 (lit "hi") 40.
(** A message whose sender (9) has no profile row. *)
Definition bye : Messages.row := Messages.mk 22 10 9 (lit "bye") 60.

(** A DM (10) between alice and bob holding three messages. *)
Definition db_chat : DB :=
  mkDB [alice; bob; carol]
       [Chats.mk 10 dm None None (Some 1) 30 30]
       [ChatMembers.mk 11 10 1 30; ChatMembers.mk 12 10 2 30]
       [hello; hi; bye]
       100.

Definition signed_in (db : DB) (u : uuid) : World :=
  mkWorld db (Some u) [] [] [].

Definition signed_out (db : DB) : World := mkWorld db None [] [] [].

Definition typing (s : jstr) : ChatScreen.State :=
  ChatScreen.mkState None [] s false false None.

Definition picking (sel : list Profiles.row) (gname : jstr) : NewChat.State :=
  NewChat.mkState [] [] false sel gname false.

End Sample.

(** * Properties *)

(** ** The store: ordering, visibility, fresh keys *)

Section Ordering.

Import Store.

Lemma insert_by_created_at_perm m l :
  Permutation (insert_by_created_at m l) (m :: l).
Proof.
  induction l as [|x l IH]; simpl.
  - apply Permutation_refl.
  - destruct (Messages.created_at m <? Messages.created_at x).
    + apply Permutation_refl.
    + eapply perm_trans; [apply perm_skip, IH | apply perm_swap].
Qed.

Lemma order_by_created_at_perm l : Permutation (order_by_created_at l) l.
Proof.
  induction l as [|m l IH]; simpl.
  - constructor.
  - eapply perm_trans; [apply insert_by_created_at_perm|].
    now apply perm_skip.
Qed.

Lemma order_by_created_at_In l x : In x (order_by_created_at l) <-> In x l.
Proof.
  split; apply Permutation_in;
    [|apply Permutation_sym]; apply order_by_created_at_perm.
Qed.

Lemma insert_by_created_at_sorted m l :
  StronglySorted created_le l ->
  StronglySorted created_le (insert_by_created_at m l).
Proof.
  induction 1 as [|x l Hs IH Hx]; simpl.
  - repeat constructor.
  - destruct (Messages.created_at m <? Messages.created_at x) eqn:E.
    + apply N.ltb_lt in E. constructor.
      * now constructor.
      * constructor; [unfold created_le; lia|].
        eapply Forall_impl; [|exact Hx].
        unfold created_le; intros; lia.
    + apply N.ltb_ge in E. constructor; [exact IH|].
      eapply Permutation_Forall;
        [apply Permutation_sym, insert_by_created_at_perm|].
      constructor; [exact E | exact Hx].
Qed.

Lemma order_by_created_at_sorted l :
  StronglySorted created_le (order_by_created_at l).
Proof.
  induction l as [|m l IH]; simpl.
  - constructor.
  - now apply insert_by_created_at_sorted.
Qed.

Lemma StronglySorted_map_created_at l :
  StronglySorted created_le l ->
  StronglySorted N.le (map Messages.created_at l).
Proof.
  induction 1 as [|x l Hs IH Hx]; simpl; constructor; auto.
  rewrite Forall_map. exact Hx.
Qed.

(** With a session, the messages policy is the membership relation. *)
Lemma messages_select_isMember db P m :
  messages_select db (Some P) m = isMember db (Messages.chat_id m) P.
Proof.
  unfold messages_select, isMember, auth_uid_is.
  induction (chat_members db) as [|cm l IH]; simpl; [reflexivity|].
  rewrite IH, (N.eqb_sym P). reflexivity.
Qed.

Lemma messages_select_no_session db m : messages_select db None m = false.
Proof.
  unfold messages_select, auth_uid_is.
  induction (chat_members db) as [|cm l IH]; simpl; [reflexivity|].
  now rewrite andb_false_r.
Qed.

End Ordering.

(** ** history: [loadMessages] *)

(** What [loadMessages] hands to [setMessages]. *)
Lemma loadMessages_messages w C st :
  ChatScreen.messages (snd (ChatScreen.loadMessages w C st))
  = map (ChatScreen.fetch_sender w)
        (Store.order_by_created_at
           (filter (fun m => Store.messages_select (store w) (session w) m
                             && (Messages.chat_id m =? C))
                   (messages (store w)))).
Proof. reflexivity. Qed.

Lemma loadMessages_world w C st : fst (ChatScreen.loadMessages w C st) = w.
Proof. reflexivity. Qed.

(** C1. A message is in the history a principal [P] loads for conversation
    [C] only if it is a message of [C] and [P] is a member of [C] in the
    store at the time of the call; when [P] is not a member the query
    answers with an empty list and no error, nothing is logged, and the view
    holds no message. *)
Theorem loadMessages_membership_gate :
  forall (w : World) (P C : uuid) (st : ChatScreen.State),
    session w = Some P ->
    let r := ChatScreen.loadMessages w C st in
    (forall m, In m (ChatScreen.messages (snd r)) ->
       Store.isMember (store w) C P = true
       /\ Messages.chat_id (ChatScreen.row m) = C
       /\ In (ChatScreen.row m) (messages (store w)))
    /\ (Store.isMember (store w) C P = false ->
        Store.select_messages (store w) (session w) C = ok []
        /\ ChatScreen.messages (snd r) = []
        /\ fst r = w).
Proof.
  intros w P C st HP r. subst r. split.
  - intros m Hm. rewrite loadMessages_messages in Hm.
    apply in_map_iff in Hm. destruct Hm as [x [<- Hx]].
    apply order_by_created_at_In, filter_In in Hx.
    destruct Hx as [Hin Hx]. apply andb_prop in Hx. destruct Hx as [Hs Hc].
    apply N.eqb_eq in Hc. rewrite HP, messages_select_isMember, Hc in Hs.
    simpl. auto.
  - intros Hn.
    assert (E : filter (fun m => Store.messages_select (store w) (session w) m
                                 && (Messages.chat_id m =? C))
                       (messages (store w)) = []).
    { rewrite HP.
      induction (messages (store w)) as [|m l IH]; simpl; [reflexivity|].
      destruct (Messages.chat_id m =? C) eqn:Ec.
      - apply N.eqb_eq in Ec.
        rewrite messages_select_isMember, Ec, Hn. simpl. exact IH.
      - rewrite andb_false_r. exact IH. }
    unfold Store.select_messages. rewrite loadMessages_messages, E.
    simpl. auto.
Qed.

(** C5. The history [loadMessages] puts in the view is in non-decreasing
    order of [created_at]. *)
Theorem loadMessages_ascending :
  forall (w : World) (C : uuid) (st : ChatScreen.State),
    StronglySorted N.le
      (map (fun m => Messages.created_at (ChatScreen.row m))
           (ChatScreen.messages (snd (ChatScreen.loadMessages w C st)))).
Proof.
  intros w C st. rewrite loadMessages_messages, map_map. simpl.
  apply StronglySorted_map_created_at, order_by_created_at_sorted.
Qed.

(** C7. Every message of [C] the caller may see is returned by
    [loadMessages] with its stored fields, whether or not its sender's
    profile resolves: the view has one entry per visible message, a message
    whose sender has no profile row carries no sender, and the fetch neither
    logs an error nor changes anything outside the view. *)
Theorem loadMessages_unresolved_sender :
  forall (w : World) (C : uuid) (st : ChatScreen.State),
    let r := ChatScreen.loadMessages w C st in
    fst r = w
    /\ Store.select_messages (store w) (session w) C
       = ok (map ChatScreen.row (ChatScreen.messages (snd r)))
    /\ (forall msg,
          In msg (messages (store w)) ->
          Messages.chat_id msg = C ->
          Store.messages_select (store w) (session w) msg = true ->
          exists m, In m (ChatScreen.messages (snd r))
                    /\ ChatScreen.row m = msg)
    /\ (forall m,
          In m (ChatScreen.messages (snd r)) ->
          (forall p, In p (profiles (store w)) ->
                     Profiles.id p <> Messages.sender_id (ChatScreen.row m)) ->
          ChatScreen.sender m = None).
Proof.
  intros w C st r. subst r. split; [reflexivity|]. split; [|split].
  - rewrite loadMessages_messages, map_map. simpl. rewrite map_id.
    reflexivity.
  - intros msg Hin Hc Hs. exists (ChatScreen.fetch_sender w msg). split.
    + rewrite loadMessages_messages. apply in_map.
      apply order_by_created_at_In, filter_In. split; [exact Hin|].
      rewrite Hs, Hc, N.eqb_refl. reflexivity.
    + reflexivity.
  - intros m Hm Hno. rewrite loadMessages_messages in Hm.
    apply in_map_iff in Hm. destruct Hm as [x [<- _]]. simpl in *.
    unfold Store.select_profile.
    assert (E : filter (fun p => Store.profiles_select (session w) p
                                 && (Profiles.id p =? Messages.sender_id x))
                       (profiles (store w)) = []).
    { induction (profiles (store w)) as [|p l IH]; simpl; [reflexivity|].
      destruct (Profiles.id p =? Messages.sender_id x) eqn:E.
      - apply N.eqb_eq in E. exfalso. apply (Hno p); [now left | exact E].
      - simpl. apply IH. intros q Hq. apply Hno. now right. }
    rewrite E. reflexivity.
Qed.

(** Carol is not a member of conversation 10: her history is empty and the
    query reports no error. *)
Lemma loadMessages_membership_gate_witness :
  session (Sample.signed_in Sample.db_chat 3) = Some 3
  /\ Store.isMember Sample.db_chat 10 3 = false
  /\ Store.select_messages Sample.db_chat (Some 3) 10 = ok []
  /\ ChatScreen.messages
       (snd (ChatScreen.loadMessages (Sample.signed_in Sample.db_chat 3) 10
                                     ChatScreen.initial)) = [].
Proof.
  split; [reflexivity|]. split; [reflexivity|].
  destruct (loadMessages_membership_gate
              (Sample.signed_in Sample.db_chat 3) 3 10 ChatScreen.initial
              eq_refl) as [_ H].
  destruct (H eq_refl) as [H1 [H2 _]]. split; [exact H1 | exact H2].
Defined.

(** ** Live view: history followed by realtime events *)

Lemma live_messages st events :
  ChatScreen.messages (ChatScreen.live st events)
  = ChatScreen.messages st
    ++ map (fun e => ChatScreen.fetch_sender (fst e) (snd e)) events.
Proof.
  unfold ChatScreen.live.
  revert st. induction events as [|e events IH]; intros st; simpl.
  - now rewrite app_nil_r.
  - rewrite IH. simpl. now rewrite <- app_assoc.
Qed.

Lemma live_view_ids st events :
  view_ids (ChatScreen.live st events)
  = view_ids st ++ map (fun e => Messages.id (snd e)) events.
Proof.
  unfold view_ids. rewrite live_messages, map_app, map_map. reflexivity.
Qed.

Lemma NoDup_map_filter {A B} (f : A -> B) (p : A -> bool) l :
  NoDup (map f l) -> NoDup (map f (filter p l)).
Proof.
  induction l as [|x l IH]; simpl; intros H; [constructor|].
  inversion H as [|? ? Hx Hl]; subst.
  destruct (p x); simpl; [constructor|]; auto.
  intros Hin. apply Hx. apply in_map_iff in Hin.
  destruct Hin as [y [Hy Hf]]. apply filter_In in Hf.
  apply in_map_iff. exists y. tauto.
Qed.

(** The primary key of [messages] keeps a loaded history free of
    duplicates. *)
Lemma loadMessages_view_ids_NoDup w C st :
  NoDup (map Messages.id (messages (store w))) ->
  NoDup (view_ids (snd (ChatScreen.loadMessages w C st))).
Proof.
  intros H. unfold view_ids. rewrite loadMessages_messages, map_map. simpl.
  eapply Permutation_NoDup.
  - apply Permutation_sym, Permutation_map, order_by_created_at_perm.
  - now apply NoDup_map_filter.
Qed.

Lemma NoDup_app_iff {A} (l1 l2 : list A) :
  NoDup (l1 ++ l2)
  <-> NoDup l1 /\ NoDup l2 /\ (forall a, In a l2 -> ~ In a l1).
Proof.
  split.
  - intros H. split; [eapply NoDup_app_remove_r, H|].
    split; [eapply NoDup_app_remove_l, H|].
    induction l1 as [|x l1 IH]; simpl in *; [tauto|].
    inversion H as [|? ? Hx Hl]; subst. intros a Ha [->|Hin].
    + apply Hx, in_or_app. now right.
    + exact (IH Hl a Ha Hin).
  - intros [H1 [H2 H3]]. apply NoDup_app; auto.
    intros a Ha Hb. exact (H3 a Hb Ha).
Qed.

(** C3 (as the code has it). The handler appends every live event, in
    arrival order and without looking at the ids already shown: after a
    history load and any run of events the view shows the ids of the
    history followed by the ids of the events.  With message ids unique in
    the store, the view is free of duplicate ids exactly when the events
    carry pairwise different ids none of which the history already holds. *)
Theorem live_view_append_only :
  forall (w : World) (C : uuid) (st : ChatScreen.State)
         (events : list (World * Messages.row)),
    NoDup (map Messages.id (messages (store w))) ->
    let history := snd (ChatScreen.loadMessages w C st) in
    let view := ChatScreen.live history events in
    let event_ids := map (fun e => Messages.id (snd e)) events in
    view_ids view = view_ids history ++ event_ids
    /\ (NoDup (view_ids view)
        <-> NoDup event_ids
            /\ forall i, In i event_ids -> ~ In i (view_ids history)).
Proof.
  intros w C st events Hpk history view event_ids.
  subst view event_ids. rewrite live_view_ids. split; [reflexivity|].
  rewrite NoDup_app_iff. subst history.
  pose proof (loadMessages_view_ids_NoDup w C st Hpk). tauto.
Qed.

(** Two events with new, different ids after alice's history of
    conversation 10: no id is shown twice. *)
Lemma live_view_append_only_witness :
  NoDup (view_ids
           (ChatScreen.live
              (snd (ChatScreen.loadMessages
                      (Sample.signed_in Sample.db_chat 1) 10
                      ChatScreen.initial))
              [(Sample.signed_in Sample.db_chat 1,
                Messages.mk 23 10 2 (lit "one") 70);
               (Sample.signed_in Sample.db_chat 1,
                Messages.mk 24 10 1 (lit "two") 80)])).
Proof.
  assert (Hpk : NoDup (map Messages.id
                         (messages (store (Sample.signed_in Sample.db_chat 1))))).
  { simpl. repeat constructor; simpl; intuition discriminate. }
  apply (live_view_append_only
           (Sample.signed_in Sample.db_chat 1) 10 ChatScreen.initial
           [(Sample.signed_in Sample.db_chat 1,
             Messages.mk 23 10 2 (lit "one") 70);
            (Sample.signed_in Sample.db_chat 1,
             Messages.mk 24 10 1 (lit "two") 80)] Hpk).
  split.
  - simpl. repeat constructor; simpl; intuition discriminate.
  - simpl. intros i [<-|[<-|[]]]; intuition discriminate.
Defined.

(** C3 (as stated) fails: alice's history of conversation 10 already holds
    message 20; when the live feed then delivers message 20, the handler
    appends it again and the view shows id 20 twice. *)
Lemma live_view_duplicates_event :
  let history := snd (ChatScreen.loadMessages
                        (Sample.signed_in Sample.db_chat 1) 10
                        ChatScreen.initial) in
  let view := ChatScreen.live history
                [(Sample.signed_in Sample.db_chat 1, Sample.hello)] in
  In 20 (view_ids history)
  /\ view_ids view = [21; 20; 22; 20]
  /\ ~ NoDup (view_ids view).
Proof.
  cbv zeta. split; [vm_compute; auto|]. split; [reflexivity|].
  intros H. change (NoDup ([21] ++ 20 :: [22; 20])) in H.
  apply NoDup_remove_2 in H. apply H. simpl. auto.
Qed.

(** ** append: [sendMessage] *)

(** C4 (as the code has it). When the trimmed content is empty,
    [sendMessage] returns at its first guard: the store, the toasts, the
    navigation, the console and the component state are all left as they
    were, so nothing is written and no error is reported. *)
Theorem sendMessage_blank_is_ignored :
  forall (w : World) (C : uuid) (st : ChatScreen.State),
    trim (ChatScreen.newMessage st) = [] ->
    ChatScreen.sendMessage w C st = (w, st).
Proof.
  intros w C st H. unfold ChatScreen.sendMessage. rewrite H. reflexivity.
Qed.

Lemma sendMessage_blank_is_ignored_witness :
  ChatScreen.sendMessage (Sample.signed_in Sample.db_chat 1) 10
                         (Sample.typing (lit "  "))
  = (Sample.signed_in Sample.db_chat 1, Sample.typing (lit "  ")).
Proof.
  apply (sendMessage_blank_is_ignored
           (Sample.signed_in Sample.db_chat 1) 10 (Sample.typing (lit "  "))).
  reflexivity.
Defined.

(** C4 (as stated) fails: alice, a member of conversation 10, submits two
    spaces; the content trims to the empty string, yet no toast is shown
    and nothing is logged: the call does not fail with an error. *)
Lemma sendMessage_blank_reports_no_error :
  let r := ChatScreen.sendMessage (Sample.signed_in Sample.db_chat 1) 10
                                  (Sample.typing (lit "  ")) in
  trim (lit "  ") = []
  /\ toasts (fst r) = []
  /\ console (fst r) = []
  /\ messages (store (fst r)) = messages Sample.db_chat.
Proof. cbv zeta. repeat split. Qed.

(** ** displayNameFor: [getChatName] *)

(** C8 (the code at the failing input). Alice and bob share DM 10 and bob's
    profile resolves, with display name "Bob".  Alice opens the DM and
    loads her chat list: the screen and the list both name the
    conversation "Unknown User", because neither loader obtains the
    counterpart. *)
Theorem dm_counterpart_resolves_but_unknown :
  let w := Sample.signed_in Sample.db_chat 1 in
  let screen := snd (ChatScreen.loadChat w 10 ChatScreen.initial) in
  let list := fst (ChatList.loadChats w ChatList.initial) in
  Store.membersOf Sample.db_chat 10 = [1; 2]
  /\ option_map Profiles.display_name
                (data (Store.select_profile Sample.db_chat (Some 1) 2))
     = Some (lit "Bob")
  /\ ChatScreen.chat screen
     = Some (ChatScreen.mkChat 10 dm None None None)
  /\ ChatScreen.getChatName screen = lit "Unknown User"
  /\ map ChatList.otherUser (ChatList.chats list) = [None]
  /\ map ChatList.getChatName (ChatList.chats list) = [lit "Unknown User"].
Proof. vm_compute. repeat split. Qed.

(** ** Handlers without a session *)

(** C9 (as the code has it). With no session, [sendMessage] and [createDM]
    leave the store, the toasts, the navigation and the console untouched,
    and so does [createGroup] when at least one user is selected.  With an
    empty selection [createGroup] never reads the session: it shows the
    "Please select at least one user" error and leaves the store alone. *)
Theorem no_session_no_write :
  forall (w : World), session w = None ->
    (forall C st, fst (ChatScreen.sendMessage w C st) = w)
    /\ (forall st other, fst (NewChat.createDM w st other) = w)
    /\ (forall st, NewChat.selectedUsers st <> [] ->
                   fst (NewChat.createGroup w st) = w)
    /\ (forall st, NewChat.selectedUsers st = [] ->
                   fst (NewChat.createGroup w st)
                   = toast w (error_toast
                                (text (lit "Please select at least one user")))).
Proof.
  intros w Hs. repeat split.
  - intros C st. unfold ChatScreen.sendMessage. rewrite Hs.
    destruct (negb _ || _); reflexivity.
  - intros st other. unfold NewChat.createDM. rewrite Hs. reflexivity.
  - intros st Hsel. unfold NewChat.createGroup. rewrite Hs.
    destruct (NewChat.selectedUsers st); [congruence | reflexivity].
  - intros st Hsel. unfold NewChat.createGroup. rewrite Hsel. reflexivity.
Qed.

Lemma no_session_no_write_witness :
  fst (ChatScreen.sendMessage (Sample.signed_out Sample.db_chat) 10
                              (Sample.typing (lit "hello")))
  = Sample.signed_out Sample.db_chat
  /\ fst (NewChat.createGroup (Sample.signed_out Sample.db_chat)
                              (Sample.picking [Sample.bob] (lit "Team")))
     = Sample.signed_out Sample.db_chat.
Proof.
  destruct (no_session_no_write (Sample.signed_out Sample.db_chat) eq_refl)
    as [H1 [_ [H3 _]]].
  split; [apply H1 | apply H3; discriminate].
Defined.

(** C9 (as stated) fails: with no session and no user selected,
    [createGroup] shows an error toast. *)
Lemma createGroup_no_session_toast :
  let r := NewChat.createGroup (Sample.signed_out Sample.db_fresh)
                               (Sample.picking [] (lit "Team")) in
  session (Sample.signed_out Sample.db_fresh) = None
  /\ toasts (fst r)
     = [mkToast (lit "Error") (text (lit "Please select at least one user"))
                (lit "destructive")]
  /\ toasts (fst r) <> toasts (Sample.signed_out Sample.db_fresh).
Proof. cbv zeta. split; [reflexivity|]. split; [reflexivity|discriminate]. Qed.

(** ** Store writes *)

Section Writes.

Import Store.

Lemma max_key_ge k l : In k l -> k <= max_key l.
Proof.
  induction l as [|x l IH]; simpl; [tauto|].
  intros [->|H]; [|specialize (IH H)]; lia.
Qed.

Lemma gen_random_uuid_fresh db k :
  In k (all_keys db) -> k < gen_random_uuid db.
Proof.
  intros H. apply max_key_ge in H. unfold gen_random_uuid. lia.
Qed.

Lemma member_chat_id_is_key db cm :
  In cm (chat_members db) -> In (ChatMembers.chat_id cm) (all_keys db).
Proof.
  intros H. unfold all_keys. do 3 (apply in_or_app; right).
  apply in_or_app. left. now apply in_map.
Qed.

(** No membership row refers to a key the store has just generated. *)
Lemma fresh_chat_has_no_member db :
  filter (fun cm => ChatMembers.chat_id cm =? gen_random_uuid db)
         (chat_members db) = [].
Proof.
  pose proof (fun cm H => gen_random_uuid_fresh db _
                            (member_chat_id_is_key db cm H)) as F.
  induction (chat_members db) as [|cm l IH]; simpl; [reflexivity|].
  destruct (ChatMembers.chat_id cm =? gen_random_uuid db) eqn:E.
  - apply N.eqb_eq in E. specialize (F cm (or_introl eq_refl)). lia.
  - apply IH. intros x Hx. apply F. now right.
Qed.

Lemma isMember_filter db c u :
  isMember db c u
  = existsb (fun cm => ChatMembers.user_id cm =? u)
            (filter (fun cm => ChatMembers.chat_id cm =? c) (chat_members db)).
Proof.
  unfold isMember. induction (chat_members db) as [|cm l IH]; simpl; auto.
  destruct (ChatMembers.chat_id cm =? c); simpl; now rewrite IH.
Qed.

(** Nobody is a member of a chat whose key has just been generated, so
    nobody can see its row yet. *)
Lemma chats_select_fresh db auth c :
  Chats.id c = gen_random_uuid db -> chats_select db auth c = false.
Proof.
  intros Hid. unfold chats_select.
  destruct (existsb _ (chat_members db)) eqn:E; [|reflexivity].
  apply existsb_exists in E. destruct E as [cm [Hin H]].
  apply andb_prop in H. destruct H as [H _]. apply N.eqb_eq in H.
  pose proof (gen_random_uuid_fresh db _ (member_chat_id_is_key db cm Hin)).
  lia.
Qed.

(** The chat insert of the client asks for the new row back, and the
    caller cannot see it: the store refuses the statement. *)
Lemma insert_chat_refused db auth t n u :
  insert_chat db auth t n u = (failed (rls_violation "chats"), db).
Proof.
  unfold insert_chat. rewrite chats_select_fresh by reflexivity.
  now rewrite andb_false_r.
Qed.

End Writes.

(** ** findOrCreateDirect and createGroup: [createDM], [createGroup] *)

Section CreateDM.

Import Store.

(** Under "Users can view their own chat memberships" a signed-in caller
    sees no membership row but their own, so the query for the members of a
    chat other than the caller answers with no row at all. *)
Lemma select_other_members_sees_nobody db user chat :
  select_other_members db (Some user) chat user = ok [].
Proof.
  unfold select_other_members. f_equal.
  induction (chat_members db) as [|cm l IH]; simpl; [reflexivity|].
  unfold chat_members_select, auth_uid_is. rewrite (N.eqb_sym user).
  destruct (ChatMembers.user_id cm =? user); simpl.
  - rewrite andb_false_r. exact IH.
  - exact IH.
Qed.

(** Hence the scan of [createDM] for an existing DM never finds one. *)
Lemma find_existing_dm_none w user other l :
  session w = Some user ->
  NewChat.find_existing_dm w user other l = None.
Proof.
  intros Hs. induction l as [|[member c] l IH]; [reflexivity|].
  cbn [NewChat.find_existing_dm].
  rewrite Hs, select_other_members_sees_nobody. cbn [data ok].
  destruct (chat_type_eqb (Chats.type c) dm); exact IH.
Qed.

Lemma isMember_fresh db u : isMember db (gen_random_uuid db) u = false.
Proof. now rewrite isMember_filter, fresh_chat_has_no_member. Qed.

Lemma with_store_same w : with_store w (store w) = w.
Proof. destruct w; reflexivity. Qed.

(** [createDM] of a signed-in caller, written out: the scan finds nothing
    and the chat insert is refused. *)
Lemma createDM_signed_in w st other user :
  session w = Some user ->
  NewChat.createDM w st other
  = (toast w (error_toast (error_message (rls_violation "chats"))),
     NewChat.setCreatingChat (NewChat.setCreatingChat st true) false).
Proof.
  intros Hs. unfold NewChat.createDM. rewrite Hs.
  rewrite (find_existing_dm_none w user _ _ Hs), insert_chat_refused.
  cbn [error data failed]. now rewrite with_store_same.
Qed.

(** [createGroup] of a signed-in caller with a selection, written out. *)
Lemma createGroup_signed_in w st user :
  session w = Some user ->
  NewChat.selectedUsers st <> [] ->
  NewChat.createGroup w st
  = (toast w (error_toast (error_message (rls_violation "chats"))),
     NewChat.setCreatingChat (NewChat.setCreatingChat st true) false).
Proof.
  intros Hs Hsel. unfold NewChat.createGroup.
  destruct (NewChat.selectedUsers st) as [|u us]; [congruence|].
  rewrite Hs, insert_chat_refused. cbn [error data failed].
  now rewrite with_store_same.
Qed.

Lemma createDM_store w st other :
  store (fst (NewChat.createDM w st other)) = store w.
Proof.
  destruct (session w) as [user|] eqn:Hs.
  - now rewrite (createDM_signed_in w st other user Hs).
  - unfold NewChat.createDM. now rewrite Hs.
Qed.

Lemma createGroup_store w st :
  store (fst (NewChat.createGroup w st)) = store w.
Proof.
  destruct (NewChat.selectedUsers st) as [|u us] eqn:Hsel.
  - unfold NewChat.createGroup. now rewrite Hsel.
  - destruct (session w) as [user|] eqn:Hs.
    + rewrite (createGroup_signed_in w st user Hs); [reflexivity|].
      rewrite Hsel. discriminate.
    + unfold NewChat.createGroup. now rewrite Hsel, Hs.
Qed.

Lemma sendMessage_store w C st :
  let d := store (fst (ChatScreen.sendMessage w C st)) in
  chats d = chats (store w) /\ chat_members d = chat_members (store w).
Proof.
  unfold ChatScreen.sendMessage.
  destruct (negb _ || _); [split; reflexivity|].
  destruct (session w); [|split; reflexivity].
  unfold insert_message.
  destruct (negb (messages_insert _ _ _)); [split; reflexivity|].
  destruct (negb (existsb _ _)); [split; reflexivity|].
  destruct (negb (storable _)); split; reflexivity.
Qed.

Lemma isMember_after_insert p c ms m n k g u t v :
  isMember (mkDB p c (ms ++ [ChatMembers.mk k g u t]) m n) g v
  = isMember (mkDB p c ms m n) g v || (u =? v).
Proof.
  unfold isMember. cbn [chat_members]. rewrite existsb_app. simpl.
  now rewrite N.eqb_refl, orb_false_r.
Qed.

(** A signed-in principal's insert of a membership row for themself into
    an existing chat they are not in is accepted. *)
Lemma self_insert_accepted db u C :
  existsb (fun c => Chats.id c =? C) (chats db) = true ->
  isMember db C u = false ->
  insert_chat_members db (Some u) [(C, u)]
  = (ok tt,
     mkDB (profiles db) (chats db)
          (chat_members db
           ++ [ChatMembers.mk (gen_random_uuid db) C u (now db)])
          (messages db) (N.succ (now db))).
Proof.
  intros Hfk Hm. unfold insert_chat_members.
  cbn [insert_chat_member_rows].
  unfold insert_chat_member, chat_members_insert.
  cbn [ChatMembers.user_id ChatMembers.chat_id auth_uid_is].
  rewrite N.eqb_refl, Hfk, Hm. reflexivity.
Qed.

End CreateDM.

(** C2 (the code at the failing input). Alice calls [createDM] on bob's
    profile twice in a row, nothing else touching the store: neither call
    ends in a conversation; each shows the store's refusal of the chat
    insert and leaves the store as it was.  And on a store that already
    holds DM 10 between alice and bob, the scan of alice's call does not
    find it and the call does not end in conversation 10. *)
Theorem createDM_existing_dm_not_found :
  let refusal := error_toast (error_message (rls_violation "chats")) in
  let w0 := Sample.signed_in Sample.db_fresh 1 in
  let w1 := fst (NewChat.createDM w0 (Sample.picking [] []) Sample.bob) in
  let w2 := fst (NewChat.createDM w1 (Sample.picking [] []) Sample.bob) in
  let w := Sample.signed_in Sample.db_chat 1 in
  let w' := fst (NewChat.createDM w (Sample.picking [] []) Sample.bob) in
  (navigated w1 = [] /\ toasts w1 = [refusal] /\ store w1 = Sample.db_fresh
   /\ navigated w2 = [] /\ toasts w2 = [refusal; refusal]
   /\ store w2 = Sample.db_fresh)
  /\ (Store.membersOf Sample.db_chat 10 = [1; 2]
      /\ Store.select_other_members Sample.db_chat (Some 1) 10 1 = ok []
      /\ NewChat.find_existing_dm
           w 1 2
           [(ChatMembers.mk 11 10 1 30,
             Chats.mk 10 dm None None (Some 1) 30 30)] = None
      /\ navigated w' = [] /\ toasts w' = [refusal]
      /\ store w' = Sample.db_chat).
Proof. vm_compute. repeat split. Qed.

(** C6 (as the code has it). The client's handlers keep the members of
    every conversation that exists: after [createDM], [createGroup] or
    [sendMessage] each chat of the store has the members it had, so a DM
    with exactly two different members still has exactly those two.  The
    store does not keep that bound itself: a signed-in principal's insert
    of a membership row for themself into an existing chat they are not in
    is accepted and adds them to its members. *)
Theorem handlers_keep_membership :
  forall (w : World) (ncs : NewChat.State) (css : ChatScreen.State)
         (C : uuid) (other : Profiles.row),
    let w1 := fst (NewChat.createDM w ncs other) in
    let w2 := fst (NewChat.createGroup w ncs) in
    let w3 := fst (ChatScreen.sendMessage w C css) in
    (forall c, In c (chats (store w)) ->
       (In c (chats (store w1)) /\ In c (chats (store w2))
        /\ In c (chats (store w3)))
       /\ Store.membersOf (store w1) (Chats.id c)
          = Store.membersOf (store w) (Chats.id c)
       /\ Store.membersOf (store w2) (Chats.id c)
          = Store.membersOf (store w) (Chats.id c)
       /\ Store.membersOf (store w3) (Chats.id c)
          = Store.membersOf (store w) (Chats.id c))
    /\ (forall c a b,
          In c (chats (store w)) -> Chats.type c = dm -> a <> b ->
          Store.membersOf (store w) (Chats.id c) = [a; b] ->
          Store.membersOf (store w1) (Chats.id c) = [a; b]
          /\ Store.membersOf (store w2) (Chats.id c) = [a; b]
          /\ Store.membersOf (store w3) (Chats.id c) = [a; b])
    /\ (forall c u,
          In c (chats (store w)) ->
          Store.isMember (store w) (Chats.id c) u = false ->
          let r := Store.insert_chat_members (store w) (Some u)
                                             [(Chats.id c, u)] in
          error (fst r) = None
          /\ Store.membersOf (snd r) (Chats.id c)
             = Store.membersOf (store w) (Chats.id c) ++ [u]).
Proof.
  intros w ncs css C other w1 w2 w3.
  assert (E1 : store w1 = store w) by apply createDM_store.
  assert (E2 : store w2 = store w) by apply createGroup_store.
  destruct (sendMessage_store w C css) as [E3c E3m]. fold w3 in E3c, E3m.
  assert (F3 : forall x,
             Store.membersOf (store w3) x = Store.membersOf (store w) x).
  { intros x. unfold Store.membersOf. now rewrite E3m. }
  assert (F : forall c, In c (chats (store w)) ->
            (In c (chats (store w1)) /\ In c (chats (store w2))
             /\ In c (chats (store w3)))
            /\ Store.membersOf (store w1) (Chats.id c)
               = Store.membersOf (store w) (Chats.id c)
            /\ Store.membersOf (store w2) (Chats.id c)
               = Store.membersOf (store w) (Chats.id c)
            /\ Store.membersOf (store w3) (Chats.id c)
               = Store.membersOf (store w) (Chats.id c)).
  { intros c Hc. rewrite E1, E2, E3c, F3. auto. }
  split; [exact F|]. split.
  - intros c a b Hc _ _ Hm. destruct (F c Hc) as [_ [H1 [H2 H3]]].
    rewrite H1, H2, H3. auto.
  - intros c u Hc Hm r. subst r.
    rewrite self_insert_accepted; [|apply existsb_exists; exists c; split;
                                    [exact Hc | apply N.eqb_refl]|exact Hm].
    split; [reflexivity|]. unfold Store.membersOf. cbn [snd chat_members].
    rewrite filter_app, map_app. simpl. now rewrite N.eqb_refl.
Qed.

(** Alice sends "ok" to DM 10: its members are alice and bob as before. *)
Lemma handlers_keep_membership_witness :
  Store.membersOf
    (store (fst (ChatScreen.sendMessage (Sample.signed_in Sample.db_chat 1)
                                        10 (Sample.typing (lit "ok")))))
    10
  = [1; 2].
Proof.
  destruct (handlers_keep_membership
              (Sample.signed_in Sample.db_chat 1) (Sample.picking [] [])
              (Sample.typing (lit "ok")) 10 Sample.bob) as [_ [H _]].
  assert (Hne : (1 : uuid) <> 2) by discriminate.
  exact (proj2 (proj2 (H (Chats.mk 10 dm None None (Some 1) 30 30) 1 2
                         (or_introl eq_refl) eq_refl Hne eq_refl))).
Defined.

(** C6 (as stated) fails: DM 10 has the two members alice and bob; carol
    inserts a membership row for herself, the store accepts it under
    "Users can insert chat memberships", and the DM has three members. *)
Lemma dm_gains_a_third_member :
  let r := Store.insert_chat_members Sample.db_chat (Some 3) [(10, 3)] in
  map Chats.type (chats Sample.db_chat) = [dm]
  /\ Store.membersOf Sample.db_chat 10 = [1; 2]
  /\ error (fst r) = None
  /\ map Chats.type (chats (snd r)) = [dm]
  /\ Store.membersOf (snd r) 10 = [1; 2; 3]
  /\ ~ dm_has_two_members (snd r).
Proof.
  cbv zeta. repeat split.
  intros H.
  destruct (H (Chats.mk 10 dm None None (Some 1) 30 30))
    as [a [b [_ Hab]]]; [left; reflexivity | reflexivity |].
  vm_compute in Hab. discriminate Hab.
Qed.

(** ** createGroup and the stored name *)

(** C10 (the code at the failing input). Alice selects bob and carol,
    leaves the group name empty and calls [createGroup].  The name the
    handler sends is "New Group", but the store refuses the chat insert:
    no chat row and no membership row is stored, the refusal is shown in a
    toast and the client does not navigate. *)
Theorem createGroup_stores_nothing :
  let w := Sample.signed_in Sample.db_fresh 1 in
  let st := Sample.picking [Sample.bob; Sample.carol] [] in
  let r := NewChat.createGroup w st in
  or_else (Some (NewChat.groupName st)) (lit "New Group") = lit "New Group"
  /\ fst (Store.insert_chat Sample.db_fresh (Some 1) group
                            (Some (lit "New Group")) 1)
     = failed (rls_violation "chats")
  /\ chats (store (fst r)) = []
  /\ chat_members (store (fst r)) = []
  /\ toasts (fst r) = [error_toast (error_message (rls_violation "chats"))]
  /\ navigated (fst r) = [].
Proof. vm_compute. repeat split. Qed.

(** The profile-less sender of "bye" does not keep that message, or the two
    others, out of alice's history. *)
Lemma loadMessages_unresolved_sender_witness :
  In (ChatScreen.mkMessage Sample.bye None)
     (ChatScreen.messages
        (snd (ChatScreen.loadMessages (Sample.signed_in Sample.db_chat 1) 10
                                      ChatScreen.initial))).
Proof.
  destruct (loadMessages_unresolved_sender
              (Sample.signed_in Sample.db_chat 1) 10 ChatScreen.initial)
    as [_ [_ [Hall Hnone]]].
  destruct (Hall Sample.bye) as [m [Hm Hrow]].
  - simpl. auto.
  - reflexivity.
  - reflexivity.
  - assert (Hs : ChatScreen.sender m = None).
    { apply Hnone; [exact Hm|]. rewrite Hrow.
      intros p [<-|[<-|[<-|[]]]]; discriminate. }
    destruct m as [r s]. simpl in Hrow, Hs. subst r s. exact Hm.
Defined.

(** ** Search results never offer the caller themself *)

Lemma searchUsers_excludes_self ilike w st user :
  session w = Some user ->
  forall p, In p (NewChat.users (NewChat.searchUsers ilike w st)) ->
            Profiles.id p <> user.
Proof.
  intros Hs p. unfold NewChat.searchUsers. rewrite Hs. simpl.
  intros Hin.
  assert (Hf : In p (filter (fun p => Store.profiles_select (Some user) p
                                      && ilike (Profiles.username p)
                                               (lit "%" ++ NewChat.searchQuery st
                                                    ++ lit "%")
                                      && negb (Profiles.id p =? user))
                            (profiles (store w)))).
  { rewrite <- (firstn_skipn 20). apply in_or_app. left. exact Hin. }
  clear Hin. rename Hf into Hin. apply filter_In in Hin.
  destruct Hin as [_ H]. apply andb_prop in H. destruct H as [_ H].
  intros E. rewrite E, N.eqb_refl in H. discriminate.
Qed.

(** * Further properties of the client and the store *)

(** ** Selecting group members: [toggleUserSelection] *)

Section Selection.

Lemma existsb_filter_neg_id (l : list Profiles.row) (i j : uuid) :
  existsb (fun u => Profiles.id u =? j)
          (filter (fun u => negb (Profiles.id u =? i)) l)
  = negb (j =? i) && existsb (fun u => Profiles.id u =? j) l.
Proof.
  induction l as [|x l IH]; simpl; [now rewrite andb_false_r|].
  destruct (Profiles.id x =? i) eqn:Ei; simpl; rewrite IH.
  - apply N.eqb_eq in Ei. destruct (Profiles.id x =? j) eqn:Ej; simpl; auto.
    apply N.eqb_eq in Ej. assert (j = i) as -> by congruence.
    now rewrite N.eqb_refl.
  - destruct (Profiles.id x =? j) eqn:Ej; simpl.
    + apply N.eqb_eq in Ej. subst j. rewrite Ei. reflexivity.
    + reflexivity.
Qed.

Lemma filter_absent_id (l : list Profiles.row) (i : uuid) :
  existsb (fun u => Profiles.id u =? i) l = false ->
  filter (fun u => negb (Profiles.id u =? i)) l = l.
Proof.
  induction l as [|x l IH]; simpl; [reflexivity|].
  intros H. apply orb_false_elim in H. destruct H as [Hx Hl].
  rewrite Hx. simpl. now rewrite IH.
Qed.

(** X1. Toggling a user flips that user's checkbox and no other: a user
    that was selected is not selected afterwards and the other way round,
    and every user with a different id keeps their state. *)
Theorem toggleUserSelection_flips :
  forall (st : NewChat.State) (user other : Profiles.row),
    NewChat.checked (NewChat.toggleUserSelection st user) other
    = if Profiles.id other =? Profiles.id user
      then negb (NewChat.checked st user)
      else NewChat.checked st other.
Proof.
  intros st user other. unfold NewChat.checked, NewChat.toggleUserSelection.
  destruct (existsb (fun u => Profiles.id u =? Profiles.id user)
                    (NewChat.selectedUsers st)) eqn:E; simpl.
  - rewrite existsb_filter_neg_id.
    destruct (Profiles.id other =? Profiles.id user) eqn:Eo; reflexivity.
  - rewrite existsb_app. simpl. rewrite orb_false_r, (N.eqb_sym (Profiles.id user)).
    destruct (Profiles.id other =? Profiles.id user) eqn:Eo.
    + apply N.eqb_eq in Eo. rewrite Eo, E. reflexivity.
    + now rewrite orb_false_r.
Qed.

(** X2. A selection without repeated ids stays without repeated ids under
    [toggleUserSelection]. *)
Theorem toggleUserSelection_keeps_ids_distinct :
  forall (st : NewChat.State) (user : Profiles.row),
    NoDup (map Profiles.id (NewChat.selectedUsers st)) ->
    NoDup (map Profiles.id
               (NewChat.selectedUsers (NewChat.toggleUserSelection st user))).
Proof.
  intros st user H. unfold NewChat.toggleUserSelection.
  destruct (existsb (fun u => Profiles.id u =? Profiles.id user)
                    (NewChat.selectedUsers st)) eqn:E; simpl.
  - now apply NoDup_map_filter.
  - rewrite map_app. simpl. apply NoDup_app; [exact H | repeat constructor; auto |].
    intros a Ha [<-|[]]. apply in_map_iff in Ha. destruct Ha as [x [Hx Hin]].
    assert (existsb (fun u => Profiles.id u =? Profiles.id user)
                    (NewChat.selectedUsers st) = true).
    { apply existsb_exists. exists x. split; [exact Hin|]. now apply N.eqb_eq. }
    congruence.
Qed.

Lemma toggleUserSelection_keeps_ids_distinct_witness :
  NoDup (map Profiles.id
             (NewChat.selectedUsers
                (NewChat.toggleUserSelection
                   (Sample.picking [Sample.bob] []) Sample.carol))).
Proof.
  apply (toggleUserSelection_keeps_ids_distinct
           (Sample.picking [Sample.bob] []) Sample.carol).
  simpl. repeat constructor. simpl. tauto.
Defined.

(** X3. Selecting a user that was not selected and toggling the same user
    again gives back the component state exactly. *)
Theorem toggleUserSelection_twice :
  forall (st : NewChat.State) (user : Profiles.row),
    NewChat.checked st user = false ->
    NewChat.toggleUserSelection (NewChat.toggleUserSelection st user) user
    = st.
Proof.
  intros st user H. unfold NewChat.checked in H.
  unfold NewChat.toggleUserSelection at 2. rewrite H.
  unfold NewChat.toggleUserSelection. simpl.
  rewrite existsb_app. simpl. rewrite N.eqb_refl, orb_true_r. simpl.
  rewrite filter_app. simpl. rewrite N.eqb_refl. simpl.
  rewrite app_nil_r, (filter_absent_id _ _ H).
  destruct st; reflexivity.
Qed.

Lemma toggleUserSelection_twice_witness :
  NewChat.toggleUserSelection
    (NewChat.toggleUserSelection (Sample.picking [Sample.bob] []) Sample.carol)
    Sample.carol
  = Sample.picking [Sample.bob] [].
Proof.
  apply (toggleUserSelection_twice (Sample.picking [Sample.bob] [])
                                   Sample.carol).
  reflexivity.
Defined.

End Selection.

(** ** Looking for users: [searchUsers] *)

(** X4. For a signed-in caller [searchUsers] lists at most twenty profiles,
    all of them rows of the store whose username matches the pattern
    [%query%], none of them the caller, and ends with [loading] false; with
    no session the list of users is left as it was. *)
Theorem searchUsers_results :
  forall (ilike : jstr -> jstr -> bool) (w : World) (st : NewChat.State),
    let st' := NewChat.searchUsers ilike w st in
    NewChat.loading st' = false
    /\ (session w = None -> NewChat.users st' = NewChat.users st)
    /\ (forall user, session w = Some user ->
          (List.length (NewChat.users st') <= 20)%nat
          /\ forall p, In p (NewChat.users st') ->
               In p (profiles (store w))
               /\ ilike (Profiles.username p)
                        (lit "%" ++ NewChat.searchQuery st ++ lit "%") = true
               /\ Profiles.id p <> user).
Proof.
  intros ilike w st st'. subst st'. unfold NewChat.searchUsers.
  destruct (session w) as [u|] eqn:Hs;
    cbn [NewChat.users NewChat.setLoading NewChat.setUsers NewChat.loading].
  - split; [reflexivity|]. split; [discriminate|].
    intros user Hu. injection Hu as ->. split.
    + apply firstn_le_length.
    + intros p Hin.
      assert (Hf : In p (filter
                           (fun p => Store.profiles_select (Some user) p
                                     && ilike (Profiles.username p)
                                              (lit "%" ++ NewChat.searchQuery st
                                                   ++ lit "%")
                                     && negb (Profiles.id p =? user))
                           (profiles (store w)))).
      { rewrite <- (firstn_skipn 20). apply in_or_app. left. exact Hin. }
      apply filter_In in Hf. destruct Hf as [Hp Hb].
      apply andb_prop in Hb. destruct Hb as [Hb Hne].
      apply andb_prop in Hb. destruct Hb as [_ Hl].
      split; [exact Hp|]. split; [exact Hl|].
      intros E. rewrite E, N.eqb_refl in Hne. discriminate.
  - split; [reflexivity|]. split; [reflexivity|]. discriminate.
Qed.

(** Alice's search, with a pattern match that accepts every username,
    offers bob and carol and not alice. *)
Lemma searchUsers_results_witness :
  NewChat.users (NewChat.searchUsers (fun _ _ => true)
                                     (Sample.signed_in Sample.db_fresh 1)
                                     (Sample.picking [] []))
  = [Sample.bob; Sample.carol]
  /\ Profiles.id Sample.bob <> 1.
Proof.
  split; [reflexivity|].
  destruct (searchUsers_results (fun _ _ => true)
                                (Sample.signed_in Sample.db_fresh 1)
                                (Sample.picking [] [])) as [_ [_ H]].
  destruct (H 1 eq_refl) as [_ H'].
  exact (proj2 (proj2 (H' Sample.bob (or_introl eq_refl)))).
Defined.

(** ** Sending: [sendMessage] and what reaches the store *)

Section Trim.

Lemma trimStart_clean s : starts_clean (trimStart s).
Proof.
  induction s as [|c s IH]; simpl; [exact I|].
  destruct (isWhiteSpace c) eqn:E; [exact IH | exact E].
Qed.

Lemma trimStart_id s : starts_clean s -> trimStart s = s.
Proof. destruct s as [|c s]; simpl; [reflexivity|]. now intros ->. Qed.

Lemma trimStart_split s :
  exists ws, s = ws ++ trimStart s /\ forallb isWhiteSpace ws = true.
Proof.
  induction s as [|c s [ws [E H]]]; simpl.
  - exists []. split; reflexivity.
  - destruct (isWhiteSpace c) eqn:Ec.
    + exists (c :: ws). simpl. rewrite Ec, H. split; [now f_equal | reflexivity].
    + exists []. split; reflexivity.
Qed.

Lemma starts_clean_app_l (a b : jstr) :
  a <> [] -> starts_clean (a ++ b) -> starts_clean a.
Proof. destruct a; [congruence | simpl; auto]. Qed.

Lemma trimEnd_ends_clean s : ends_clean (trimEnd s).
Proof.
  unfold ends_clean, trimEnd. rewrite rev_involutive. apply trimStart_clean.
Qed.

Lemma trimEnd_keeps_start s : starts_clean s -> starts_clean (trimEnd s).
Proof.
  intros H. unfold trimEnd.
  destruct (trimStart_split (rev s)) as [ws [E _]].
  destruct (trimStart (rev s)) as [|c u] eqn:Eu; [exact I|].
  assert (Es : s = rev (c :: u) ++ rev ws).
  { rewrite <- rev_app_distr, <- E. now rewrite rev_involutive. }
  rewrite Es in H. apply starts_clean_app_l in H; [exact H|].
  simpl. intros Hn. apply app_eq_nil in Hn. destruct Hn; discriminate.
Qed.

Lemma trim_clean s : starts_clean (trim s) /\ ends_clean (trim s).
Proof.
  unfold trim. split.
  - apply trimEnd_keeps_start, trimStart_clean.
  - apply trimEnd_ends_clean.
Qed.

Lemma trim_clean_id s : starts_clean s -> ends_clean s -> trim s = s.
Proof.
  intros Hs He. unfold trim, trimEnd. rewrite (trimStart_id s Hs).
  rewrite (trimStart_id (rev s) He). apply rev_involutive.
Qed.

Lemma trim_idempotent s : trim (trim s) = trim s.
Proof. destruct (trim_clean s). now apply trim_clean_id. Qed.

End Trim.

Section Sending.

Import Store.

Lemma messages_insert_isMember db user chat m :
  Messages.sender_id m = user -> Messages.chat_id m = chat ->
  messages_insert db (Some user) m = isMember db chat user.
Proof.
  intros Hs Hc. unfold messages_insert.
  change (existsb _ (chat_members db)) with (messages_select db (Some user) m).
  rewrite messages_select_isMember, Hs, Hc. simpl. now rewrite N.eqb_refl.
Qed.

Lemma truthy_nonempty (s : jstr) : s <> [] -> truthy s = true.
Proof. destruct s; [congruence | reflexivity]. Qed.

(** The accepted path of [sendMessage], written out. *)
Lemma sendMessage_accepted w C st user :
  session w = Some user ->
  isMember (store w) C user = true ->
  existsb (fun c => Chats.id c =? C) (chats (store w)) = true ->
  trim (ChatScreen.newMessage st) <> [] ->
  storable (trim (ChatScreen.newMessage st)) = true ->
  ChatScreen.sending st = false ->
  ChatScreen.sendMessage w C st
  = (with_store w
       (mkDB (profiles (store w)) (chats (store w)) (chat_members (store w))
             (messages (store w) ++ [sent_message w C user st])
             (N.succ (now (store w)))),
     ChatScreen.setSending
       (ChatScreen.setNewMessage (ChatScreen.setSending st true) []) false).
Proof.
  intros Hs Hm Hc Ht Hst Hsend. unfold ChatScreen.sendMessage.
  rewrite (truthy_nonempty _ Ht), Hsend, Hs. cbn [negb orb].
  unfold insert_message.
  rewrite (messages_insert_isMember (store w) user C) by reflexivity.
  rewrite Hm, Hc, Hst. reflexivity.
Qed.

(** The rejected path: the caller is not a member of the conversation. *)
Lemma sendMessage_rejected w C st user :
  session w = Some user ->
  isMember (store w) C user = false ->
  trim (ChatScreen.newMessage st) <> [] ->
  ChatScreen.sending st = false ->
  ChatScreen.sendMessage w C st
  = (toast w (error_toast (error_message (rls_violation "messages"))),
     ChatScreen.setSending (ChatScreen.setSending st true) false).
Proof.
  intros Hs Hm Ht Hsend. unfold ChatScreen.sendMessage.
  rewrite (truthy_nonempty _ Ht), Hsend, Hs. cbn [negb orb].
  unfold insert_message.
  rewrite (messages_insert_isMember (store w) user C) by reflexivity.
  rewrite Hm. cbn [negb error fst snd failed]. unfold with_store, toast.
  destruct w; reflexivity.
Qed.

End Sending.

Section SendingProperties.

Import Store.

Lemma sendMessage_messages w C st :
  messages (store (fst (ChatScreen.sendMessage w C st))) = messages (store w)
  \/ exists user,
       session w = Some user
       /\ isMember (store w) C user = true
       /\ trim (ChatScreen.newMessage st) <> []
       /\ messages (store (fst (ChatScreen.sendMessage w C st)))
          = messages (store w) ++ [sent_message w C user st].
Proof.
  unfold ChatScreen.sendMessage.
  destruct (trim (ChatScreen.newMessage st)) as [|c t] eqn:Et;
    [left; reflexivity|].
  cbn [truthy negb orb].
  destruct (ChatScreen.sending st); [left; reflexivity|].
  destruct (session w) as [user|] eqn:Hs; [|left; reflexivity].
  unfold insert_message.
  rewrite (messages_insert_isMember (store w) user C) by reflexivity.
  destruct (isMember (store w) C user) eqn:Hm; [|left; reflexivity].
  cbn [negb].
  destruct (existsb (fun c0 => Chats.id c0 =? C) (chats (store w)));
    [|left; reflexivity].
  cbn [negb]. rewrite <- Et.
  destruct (storable (trim (ChatScreen.newMessage st)));
    [|left; reflexivity].
  rewrite Et. right. exists user. cbn [negb]. split; [reflexivity|]. split; [exact Hm|].
  split; [discriminate|]. unfold sent_message. rewrite Et. reflexivity.
Qed.

End SendingProperties.

(** X5. A member who submits a non-blank message that a text column can
    hold, while no send is in flight, gets exactly one row appended to
    [messages]: the conversation of
    the screen, the caller as sender, the trimmed input as content.  No
    toast is shown, the input field is emptied and [sending] is false
    again; the view itself is not touched (the message arrives through the
    live feed). *)
Theorem sendMessage_member_appends :
  forall (w : World) (C user : uuid) (st : ChatScreen.State),
    session w = Some user ->
    Store.isMember (store w) C user = true ->
    existsb (fun c => Chats.id c =? C) (chats (store w)) = true ->
    trim (ChatScreen.newMessage st) <> [] ->
    storable (trim (ChatScreen.newMessage st)) = true ->
    ChatScreen.sending st = false ->
    let r := ChatScreen.sendMessage w C st in
    messages (store (fst r))
    = messages (store w)
      ++ [Messages.mk (Store.gen_random_uuid (store w)) C user
                      (trim (ChatScreen.newMessage st)) (now (store w))]
    /\ chat_members (store (fst r)) = chat_members (store w)
    /\ toasts (fst r) = toasts w
    /\ navigated (fst r) = navigated w
    /\ ChatScreen.newMessage (snd r) = []
    /\ ChatScreen.sending (snd r) = false
    /\ ChatScreen.messages (snd r) = ChatScreen.messages st.
Proof.
  intros w C user st Hs Hm Hc Ht Hst Hsend r. subst r.
  rewrite (sendMessage_accepted w C st user Hs Hm Hc Ht Hst Hsend).
  repeat split.
Qed.

Lemma sendMessage_member_appends_witness :
  map Messages.content
      (messages (store (fst (ChatScreen.sendMessage
                               (Sample.signed_in Sample.db_chat 1) 10
                               (Sample.typing (lit "  ok "))))))
  = [lit "hello"; lit "hi"; lit "bye"; lit "ok"].
Proof.
  destruct (sendMessage_member_appends
              (Sample.signed_in Sample.db_chat 1) 10 1
              (Sample.typing (lit "  ok "))
              eq_refl eq_refl eq_refl) as [H _].
  - discriminate.
  - reflexivity.
  - reflexivity.
  - rewrite H. reflexivity.
Defined.

(** X6. When the caller is not a member of the conversation, the store
    refuses the insert: nothing is written, one error toast carrying the
    store's message is shown, the typed text stays in the input field and
    [sending] is false again. *)
Theorem sendMessage_non_member_refused :
  forall (w : World) (C user : uuid) (st : ChatScreen.State),
    session w = Some user ->
    Store.isMember (store w) C user = false ->
    trim (ChatScreen.newMessage st) <> [] ->
    ChatScreen.sending st = false ->
    let r := ChatScreen.sendMessage w C st in
    store (fst r) = store w
    /\ toasts (fst r)
       = error_toast (error_message (rls_violation "messages")) :: toasts w
    /\ navigated (fst r) = navigated w
    /\ ChatScreen.newMessage (snd r) = ChatScreen.newMessage st
    /\ ChatScreen.sending (snd r) = false.
Proof.
  intros w C user st Hs Hm Ht Hsend r. subst r.
  rewrite (sendMessage_rejected w C st user Hs Hm Ht Hsend).
  repeat split.
Qed.

Lemma sendMessage_non_member_refused_witness :
  store (fst (ChatScreen.sendMessage (Sample.signed_in Sample.db_chat 3) 10
                                     (Sample.typing (lit "let me in"))))
  = Sample.db_chat
  /\ List.length
       (toasts (fst (ChatScreen.sendMessage
                       (Sample.signed_in Sample.db_chat 3) 10
                       (Sample.typing (lit "let me in"))))) = 1%nat.
Proof.
  destruct (sendMessage_non_member_refused
              (Sample.signed_in Sample.db_chat 3) 10 3
              (Sample.typing (lit "let me in")) eq_refl eq_refl)
    as [H1 [H2 _]].
  - discriminate.
  - reflexivity.
  - split; [exact H1 | rewrite H2; reflexivity].
Defined.

(** X7. Send then load: after a member has sent a non-blank message that a
    text column can hold, the history any member of the conversation loads
    from the resulting store holds that message, with the trimmed content
    and the sender's id. *)
Theorem sendMessage_then_loadMessages :
  forall (w w2 : World) (C user P : uuid) (st st2 : ChatScreen.State),
    session w = Some user ->
    Store.isMember (store w) C user = true ->
    existsb (fun c => Chats.id c =? C) (chats (store w)) = true ->
    trim (ChatScreen.newMessage st) <> [] ->
    storable (trim (ChatScreen.newMessage st)) = true ->
    ChatScreen.sending st = false ->
    store w2 = store (fst (ChatScreen.sendMessage w C st)) ->
    session w2 = Some P ->
    Store.isMember (store w) C P = true ->
    exists m,
      In m (ChatScreen.messages (snd (ChatScreen.loadMessages w2 C st2)))
      /\ Messages.content (ChatScreen.row m) = trim (ChatScreen.newMessage st)
      /\ Messages.sender_id (ChatScreen.row m) = user
      /\ Messages.chat_id (ChatScreen.row m) = C.
Proof.
  intros w w2 C user P st st2 Hs Hm Hc Ht Hst Hsend Hw2 HP HmP.
  rewrite (sendMessage_accepted w C st user Hs Hm Hc Ht Hst Hsend) in Hw2.
  simpl in Hw2.
  exists (ChatScreen.fetch_sender w2 (sent_message w C user st)).
  split; [|repeat split].
  rewrite loadMessages_messages. apply in_map.
  apply order_by_created_at_In, filter_In. split.
  - rewrite Hw2. simpl. apply in_or_app. right. left. reflexivity.
  - rewrite HP, messages_select_isMember. simpl. rewrite N.eqb_refl, andb_true_r.
    unfold Store.isMember. rewrite Hw2. exact HmP.
Qed.

(** Alice sends "ok" to conversation 10; bob's history then holds it. *)
Lemma sendMessage_then_loadMessages_witness :
  exists m,
    In m (ChatScreen.messages
            (snd (ChatScreen.loadMessages
                    (Sample.signed_in
                       (store (fst (ChatScreen.sendMessage
                                      (Sample.signed_in Sample.db_chat 1) 10
                                      (Sample.typing (lit "  ok ")))))
                       2)
                    10 ChatScreen.initial)))
    /\ Messages.content (ChatScreen.row m) = lit "ok"
    /\ Messages.sender_id (ChatScreen.row m) = 1.
Proof.
  destruct (sendMessage_then_loadMessages
              (Sample.signed_in Sample.db_chat 1)
              (Sample.signed_in
                 (store (fst (ChatScreen.sendMessage
                                (Sample.signed_in Sample.db_chat 1) 10
                                (Sample.typing (lit "  ok ")))))
                 2)
              10 1 2 (Sample.typing (lit "  ok ")) ChatScreen.initial
              eq_refl eq_refl eq_refl)
    as [m [H1 [H2 [H3 _]]]]; try reflexivity; try discriminate.
  exists m. split; [exact H1|]. split; [exact H2 | exact H3].
Defined.

(** X8. Whatever the input and the state, a row that [sendMessage] adds to
    [messages] belongs to the conversation of the screen, is sent by the
    signed-in caller, who is a member of it, and carries a content that is
    not empty, is the trimmed input, and neither begins nor ends with a
    code unit [trim] strips. *)
Theorem sendMessage_stores_only_trimmed :
  forall (w : World) (C : uuid) (st : ChatScreen.State) (m : Messages.row),
    In m (messages (store (fst (ChatScreen.sendMessage w C st)))) ->
    ~ In m (messages (store w)) ->
    Messages.chat_id m = C
    /\ session w = Some (Messages.sender_id m)
    /\ Store.isMember (store w) C (Messages.sender_id m) = true
    /\ Messages.content m = trim (ChatScreen.newMessage st)
    /\ Messages.content m <> []
    /\ starts_clean (Messages.content m)
    /\ ends_clean (Messages.content m)
    /\ trim (Messages.content m) = Messages.content m.
Proof.
  intros w C st m Hin Hnew.
  destruct (sendMessage_messages w C st)
    as [E|[user [Hs [Hm [Ht E]]]]]; rewrite E in Hin; [contradiction|].
  apply in_app_or in Hin. destruct Hin as [Hin|[<-|[]]]; [contradiction|].
  simpl. destruct (trim_clean (ChatScreen.newMessage st)) as [H1 H2].
  repeat split; auto. apply trim_idempotent.
Qed.

Lemma sendMessage_stores_only_trimmed_witness :
  Messages.content (Messages.mk 23 10 1 (lit "ok") 100) = lit "ok"
  /\ trim (lit "ok") = lit "ok".
Proof.
  assert (Hin : In (Messages.mk 23 10 1 (lit "ok") 100)
                   (messages (store (fst (ChatScreen.sendMessage
                                            (Sample.signed_in Sample.db_chat 1)
                                            10
                                            (Sample.typing (lit "  ok "))))))).
  { vm_compute. do 3 right. left. reflexivity. }
  assert (Hnew : ~ In (Messages.mk 23 10 1 (lit "ok") 100)
                      (messages (store (Sample.signed_in Sample.db_chat 1)))).
  { simpl. intros [H|[H|[H|[]]]]; discriminate. }
  destruct (sendMessage_stores_only_trimmed _ _ _ _ Hin Hnew)
    as [_ [_ [_ [_ [_ [_ [_ H]]]]]]].
  split; [reflexivity | exact H].
Defined.

(** ** Creating conversations: what the store answers *)

(** X9. Whatever the store holds, [createGroup] of a signed-in caller with
    a non-empty selection creates nothing: the chat insert asks for the new
    row back, the caller is not yet a member of the new chat and so may not
    see it, and the store refuses the statement.  The store is left as it
    was, the refusal is shown in an error toast, the client does not
    navigate, no membership insert is sent and [creatingChat] ends
    false. *)
Theorem createGroup_refused_by_store :
  forall (w : World) (st : NewChat.State) (user : uuid),
    session w = Some user ->
    NewChat.selectedUsers st <> [] ->
    let r := NewChat.createGroup w st in
    store (fst r) = store w
    /\ toasts (fst r)
       = error_toast (error_message (rls_violation "chats")) :: toasts w
    /\ navigated (fst r) = navigated w
    /\ NewChat.creatingChat (snd r) = false
    /\ NewChat.selectedUsers (snd r) = NewChat.selectedUsers st.
Proof.
  intros w st user Hs Hsel r. subst r.
  rewrite (createGroup_signed_in w st user Hs Hsel). repeat split.
Qed.

Lemma createGroup_refused_by_store_witness :
  store (fst (NewChat.createGroup
                (Sample.signed_in Sample.db_chat 1)
                (Sample.picking [Sample.bob; Sample.carol] (lit "Team"))))
  = Sample.db_chat
  /\ navigated (fst (NewChat.createGroup
                       (Sample.signed_in Sample.db_chat 1)
                       (Sample.picking [Sample.bob; Sample.carol]
                                       (lit "Team")))) = [].
Proof.
  destruct (createGroup_refused_by_store
              (Sample.signed_in Sample.db_chat 1)
              (Sample.picking [Sample.bob; Sample.carol] (lit "Team")) 1
              eq_refl) as [H1 [_ [H3 _]]].
  - discriminate.
  - split; [exact H1 | exact H3].
Defined.

(** X12. Whatever conversations the store holds, [createDM] of a signed-in
    caller never ends in a conversation: the scan for an existing DM finds
    nothing (the caller cannot read the membership rows of others), the
    chat insert that follows is refused by the store, the store is left as
    it was, the refusal is shown in an error toast and the client does not
    navigate. *)
Theorem createDM_refused_by_store :
  forall (w : World) (st : NewChat.State) (other : Profiles.row) (user : uuid),
    session w = Some user ->
    let r := NewChat.createDM w st other in
    (forall l, NewChat.find_existing_dm w user (Profiles.id other) l = None)
    /\ store (fst r) = store w
    /\ toasts (fst r)
       = error_toast (error_message (rls_violation "chats")) :: toasts w
    /\ navigated (fst r) = navigated w
    /\ NewChat.creatingChat (snd r) = false.
Proof.
  intros w st other user Hs r. subst r.
  rewrite (createDM_signed_in w st other user Hs).
  split; [intros l; now apply find_existing_dm_none | repeat split].
Qed.

(** Alice and bob already share DM 10; alice's [createDM] on bob's profile
    neither opens it nor creates another. *)
Lemma createDM_refused_by_store_witness :
  Store.membersOf Sample.db_chat 10 = [1; 2]
  /\ navigated (fst (NewChat.createDM (Sample.signed_in Sample.db_chat 1)
                                      (Sample.picking [] []) Sample.bob))
     = []
  /\ store (fst (NewChat.createDM (Sample.signed_in Sample.db_chat 1)
                                  (Sample.picking [] []) Sample.bob))
     = Sample.db_chat.
Proof.
  split; [reflexivity|].
  destruct (createDM_refused_by_store
              (Sample.signed_in Sample.db_chat 1) (Sample.picking [] [])
              Sample.bob 1 eq_refl) as [_ [H2 [_ [H4 _]]]].
  split; [exact H4 | exact H2].
Defined.

(** ** Opening a conversation: [loadChat] *)

Section Opening.

Import Store.

Lemma chats_select_isMember db user c :
  chats_select db (Some user) c = isMember db (Chats.id c) user.
Proof.
  unfold chats_select, isMember, auth_uid_is.
  induction (chat_members db) as [|cm l IH]; simpl; [reflexivity|].
  rewrite IH, (N.eqb_sym user). reflexivity.
Qed.

(** No row of another member is visible to the caller, so the query for
    "the other member" of a chat has no single row to return. *)
Lemma select_other_member_none db user chat :
  select_other_member db (Some user) chat user = failed no_single_row.
Proof.
  unfold select_other_member.
  replace (filter _ (chat_members db)) with (@nil ChatMembers.row);
    [reflexivity|].
  induction (chat_members db) as [|cm l IH]; simpl; [reflexivity|].
  unfold chat_members_select, auth_uid_is. rewrite (N.eqb_sym user).
  destruct (ChatMembers.user_id cm =? user); simpl;
    [rewrite andb_false_r|]; exact IH.
Qed.

Lemma select_chat_non_member db user C :
  isMember db C user = false ->
  select_chat db (Some user) C = failed no_single_row.
Proof.
  intros H. unfold select_chat.
  replace (filter _ (chats db)) with (@nil Chats.row); [reflexivity|].
  induction (chats db) as [|c l IH]; simpl; [reflexivity|].
  destruct (Chats.id c =? C) eqn:E.
  - apply N.eqb_eq in E. rewrite chats_select_isMember, E, H. exact IH.
  - rewrite andb_false_r. exact IH.
Qed.

Lemma select_chat_member db user C c :
  isMember db C user = true ->
  filter (fun x => Chats.id x =? C) (chats db) = [c] ->
  select_chat db (Some user) C = ok c.
Proof.
  intros H Hc. unfold select_chat.
  replace (filter (fun c0 => chats_select db (Some user) c0
                             && (Chats.id c0 =? C)) (chats db))
    with (filter (fun x => Chats.id x =? C) (chats db));
    [now rewrite Hc|].
  apply filter_ext_in. intros x _.
  destruct (Chats.id x =? C) eqn:E; [|now rewrite andb_false_r].
  apply N.eqb_eq in E. now rewrite chats_select_isMember, E, H.
Qed.

End Opening.

(** X13. A signed-in caller who opens a conversation they are not a member
    of (or that does not exist) is turned away: the store shows them no such
    chat, "Failed to load chat" is shown as an error toast, the client
    navigates to the chat list, no chat is put in the view, and [loading]
    ends false. *)
Theorem loadChat_non_member :
  forall (w : World) (C user : uuid) (st : ChatScreen.State),
    session w = Some user ->
    Store.isMember (store w) C user = false ->
    let r := ChatScreen.loadChat w C st in
    toasts (fst r) = error_toast (text (lit "Failed to load chat")) :: toasts w
    /\ navigated (fst r) = route_home :: navigated w
    /\ store (fst r) = store w
    /\ ChatScreen.chat (snd r) = ChatScreen.chat st
    /\ ChatScreen.loading (snd r) = false
    /\ ChatScreen.currentUserId (snd r) = Some user.
Proof.
  intros w C user st Hs Hm r. subst r. unfold ChatScreen.loadChat.
  rewrite Hs, (select_chat_non_member _ _ _ Hm). repeat split.
Qed.

Lemma loadChat_non_member_witness :
  navigated (fst (ChatScreen.loadChat (Sample.signed_in Sample.db_chat 3) 10
                                      ChatScreen.initial))
  = [route_home]
  /\ ChatScreen.chat
       (snd (ChatScreen.loadChat (Sample.signed_in Sample.db_chat 3) 10
                                 ChatScreen.initial)) = None.
Proof.
  destruct (loadChat_non_member (Sample.signed_in Sample.db_chat 3) 10 3
                                ChatScreen.initial eq_refl eq_refl)
    as [_ [H2 [_ [H4 _]]]].
  split; [exact H2 | exact H4].
Defined.

(** X14. A member who opens a conversation gets the stored chat in the
    view, with its id, type, name and avatar, and nothing else happens: no
    toast, no navigation.  The counterpart is left unresolved, so a group is
    titled by its name (or "Unnamed Group") and shows its own avatar, while a
    DM is titled "Unknown User" and shows no avatar. *)
Theorem loadChat_member :
  forall (w : World) (C user : uuid) (st : ChatScreen.State) (c : Chats.row),
    session w = Some user ->
    Store.isMember (store w) C user = true ->
    filter (fun x => Chats.id x =? C) (chats (store w)) = [c] ->
    let r := ChatScreen.loadChat w C st in
    fst r = w
    /\ ChatScreen.chat (snd r)
       = Some (ChatScreen.mkChat (Chats.id c) (Chats.type c) (Chats.name c)
                                 (Chats.avatar_url c) None)
    /\ ChatScreen.loading (snd r) = false
    /\ ChatScreen.getChatName (snd r)
       = match Chats.type c with
         | group => or_else (Chats.name c) (lit "Unnamed Group")
         | dm => lit "Unknown User"
         end
    /\ ChatScreen.getChatAvatar (snd r)
       = match Chats.type c with
         | group => Chats.avatar_url c
         | dm => None
         end.
Proof.
  intros w C user st c Hs Hm Hc r. subst r. unfold ChatScreen.loadChat.
  rewrite Hs, (select_chat_member _ _ _ _ Hm Hc), select_other_member_none.
  cbn [error data ok failed]. split; [reflexivity|].
  destruct (Chats.type c) eqn:Et;
    unfold ChatScreen.getChatName, ChatScreen.getChatAvatar; simpl;
    rewrite ?Et; repeat split.
Qed.

(** Alice opens her DM with bob: the header reads "Unknown User". *)
Lemma loadChat_member_witness :
  ChatScreen.getChatName
    (snd (ChatScreen.loadChat (Sample.signed_in Sample.db_chat 1) 10
                              ChatScreen.initial))
  = lit "Unknown User".
Proof.
  destruct (loadChat_member (Sample.signed_in Sample.db_chat 1) 10 1
                            ChatScreen.initial
                            (Chats.mk 10 dm None None (Some 1) 30 30)
                            eq_refl eq_refl eq_refl) as [_ [_ [_ [H _]]]].
  exact H.
Defined.

(** X15. [loadChat] never resolves a counterpart: if the view holds no
    chat with a counterpart before the call, it holds none after it,
    whatever the store, the session and the conversation asked for. *)
Theorem loadChat_counterpart_unresolved :
  forall (w : World) (C : uuid) (st : ChatScreen.State),
    (forall c, ChatScreen.chat st = Some c -> ChatScreen.otherUser c = None) ->
    forall c, ChatScreen.chat (snd (ChatScreen.loadChat w C st)) = Some c ->
              ChatScreen.otherUser c = None.
Proof.
  intros w C st Hinv c. unfold ChatScreen.loadChat.
  destruct (session w) as [user|] eqn:Hs; [|exact (Hinv c)].
  destruct (Store.select_chat (store w) (Some user) C) as [[x|] [e|]];
    cbn [error data]; try exact (Hinv c).
  rewrite select_other_member_none. cbn [data failed snd].
  destruct (Chats.type x); simpl; intros H; injection H as <-; reflexivity.
Qed.

Lemma loadChat_counterpart_unresolved_witness :
  ChatScreen.chat (snd (ChatScreen.loadChat
                          (Sample.signed_in Sample.db_chat 2) 10
                          ChatScreen.initial))
  = Some (ChatScreen.mkChat 10 dm None None None)
  /\ ChatScreen.otherUser (ChatScreen.mkChat 10 dm None None None) = None.
Proof.
  split; [reflexivity|].
  apply (loadChat_counterpart_unresolved
           (Sample.signed_in Sample.db_chat 2) 10 ChatScreen.initial).
  - intros c H. discriminate H.
  - reflexivity.
Defined.

(** ** The conversation list: [loadChats] *)

Section Listing.

Import Store.

Lemma insert_by_created_at_desc_perm m l :
  Permutation (insert_by_created_at_desc m l) (m :: l).
Proof.
  induction l as [|x l IH]; simpl.
  - apply Permutation_refl.
  - destruct (Messages.created_at x <? Messages.created_at m).
    + apply Permutation_refl.
    + eapply perm_trans; [apply perm_skip, IH | apply perm_swap].
Qed.

Lemma order_by_created_at_desc_perm l :
  Permutation (order_by_created_at_desc l) l.
Proof.
  induction l as [|m l IH]; simpl; [constructor|].
  eapply perm_trans; [apply insert_by_created_at_desc_perm|].
  now apply perm_skip.
Qed.

Lemma insert_by_created_at_desc_sorted m l :
  StronglySorted (fun a b => created_le b a) l ->
  StronglySorted (fun a b => created_le b a) (insert_by_created_at_desc m l).
Proof.
  induction 1 as [|x l Hs IH Hx]; simpl.
  - repeat constructor.
  - destruct (Messages.created_at x <? Messages.created_at m) eqn:E.
    + apply N.ltb_lt in E. constructor; [now constructor|].
      constructor; [unfold created_le; lia|].
      eapply Forall_impl; [|exact Hx]. unfold created_le; intros; lia.
    + apply N.ltb_ge in E. constructor; [exact IH|].
      eapply Permutation_Forall;
        [apply Permutation_sym, insert_by_created_at_desc_perm|].
      constructor; [exact E | exact Hx].
Qed.

Lemma order_by_created_at_desc_sorted l :
  StronglySorted (fun a b => created_le b a) (order_by_created_at_desc l).
Proof.
  induction l as [|m l IH]; simpl; [constructor|].
  now apply insert_by_created_at_desc_sorted.
Qed.

(** The head of the descending order is a newest element. *)
Lemma order_by_created_at_desc_head l x r :
  order_by_created_at_desc l = x :: r ->
  In x l /\ forall y, In y l -> created_le y x.
Proof.
  intros E. pose proof (order_by_created_at_desc_perm l) as P.
  pose proof (order_by_created_at_desc_sorted l) as S. rewrite E in P, S.
  split.
  - eapply Permutation_in; [exact P | now left].
  - intros y Hy. apply (Permutation_in _ (Permutation_sym P)) in Hy.
    destruct Hy as [<-|Hy]; [unfold created_le; lia|].
    inversion S as [|? ? _ Hall]; subst.
    rewrite Forall_forall in Hall. exact (Hall y Hy).
Qed.

(** What [select_last_message] answers to a member of the chat. *)
Lemma select_last_message_member db user C :
  isMember db C user = true ->
  match data (select_last_message db (Some user) C) with
  | None => forall m, In m (messages db) -> Messages.chat_id m <> C
  | Some (body, t) =>
      exists m, In m (messages db) /\ Messages.chat_id m = C
                /\ Messages.content m = body /\ Messages.created_at m = t
                /\ forall m', In m' (messages db) -> Messages.chat_id m' = C ->
                              Messages.created_at m' <= t
  end.
Proof.
  intros Hm. unfold select_last_message.
  assert (Hf : forall m,
             In m (filter (fun m => messages_select db (Some user) m
                                    && (Messages.chat_id m =? C))
                          (messages db))
             <-> In m (messages db) /\ Messages.chat_id m = C).
  { intros m. rewrite filter_In. split; intros [H1 H2]; split; auto.
    - apply andb_prop in H2. now apply N.eqb_eq.
    - rewrite messages_select_isMember, H2, Hm. now rewrite N.eqb_refl. }
  destruct (order_by_created_at_desc _) as [|x r] eqn:E.
  - simpl. intros m Hin Hc.
    assert (Hx : In m (order_by_created_at_desc
                         (filter (fun m => messages_select db (Some user) m
                                           && (Messages.chat_id m =? C))
                                 (messages db)))).
    { eapply Permutation_in;
        [apply Permutation_sym, order_by_created_at_desc_perm|].
      apply Hf. auto. }
    rewrite E in Hx. exact Hx.
  - simpl. destruct (order_by_created_at_desc_head _ _ _ E) as [Hin Hmax].
    apply Hf in Hin. destruct Hin as [Hin Hc].
    exists x. repeat split; auto.
    intros m' Hm' Hc'. apply (Hmax m'). apply Hf. auto.
Qed.

Lemma own_rows_visible db user :
  filter (fun cm => chat_members_select (Some user) cm
                    && (ChatMembers.user_id cm =? user))
         (chat_members db)
  = memberships db user.
Proof.
  unfold memberships. apply filter_ext. intros cm.
  unfold chat_members_select, auth_uid_is. rewrite (N.eqb_sym user).
  now destruct (ChatMembers.user_id cm =? user).
Qed.

Lemma memberships_In db user cm :
  In cm (memberships db user)
  <-> In cm (chat_members db) /\ ChatMembers.user_id cm = user.
Proof. unfold memberships. rewrite filter_In, N.eqb_eq. reflexivity. Qed.

Lemma isMember_memberships db user C :
  isMember db C user = true
  <-> In C (map ChatMembers.chat_id (memberships db user)).
Proof.
  unfold isMember. rewrite existsb_exists, in_map_iff. split.
  - intros [cm [Hin H]]. apply andb_prop in H. destruct H as [H1 H2].
    apply N.eqb_eq in H1, H2. exists cm. split; [exact H1|].
    apply memberships_In. auto.
  - intros [cm [Hc Hin]]. apply memberships_In in Hin.
    destruct Hin as [Hin Hu]. exists cm. split; [exact Hin|].
    now rewrite Hc, Hu, !N.eqb_refl.
Qed.

(** A chat the caller has a membership row for is visible to the caller. *)
Lemma own_chat_visible db user cm :
  In cm (memberships db user) ->
  hd_error (filter (fun c => chats_select db (Some user) c
                             && (Chats.id c =? ChatMembers.chat_id cm))
                   (chats db))
  = chat_of db cm.
Proof.
  intros Hin. unfold chat_of. f_equal. apply filter_ext. intros c.
  destruct (Chats.id c =? ChatMembers.chat_id cm) eqn:E;
    [|now rewrite andb_false_r].
  apply N.eqb_eq in E. rewrite chats_select_isMember, E, andb_true_r.
  apply isMember_memberships, in_map, Hin.
Qed.

Lemma chat_of_Some db cm c :
  chat_of db cm = Some c ->
  In c (chats db) /\ Chats.id c = ChatMembers.chat_id cm.
Proof.
  unfold chat_of. intros H.
  destruct (filter _ (chats db)) as [|x l] eqn:E; [discriminate|].
  injection H as ->.
  assert (Hin : In c (filter (fun c => Chats.id c =? ChatMembers.chat_id cm)
                             (chats db))) by (rewrite E; now left).
  apply filter_In in Hin. destruct Hin as [H1 H2]. now apply N.eqb_eq in H2.
Qed.

Lemma chat_of_None db cm :
  chat_of db cm = None ->
  forall c, In c (chats db) -> Chats.id c <> ChatMembers.chat_id cm.
Proof.
  unfold chat_of. intros H c Hin Hc.
  destruct (filter _ (chats db)) as [|x l] eqn:E; [|discriminate].
  assert (Hf : In c (filter (fun c => Chats.id c =? ChatMembers.chat_id cm)
                            (chats db))).
  { apply filter_In. split; [exact Hin | now apply N.eqb_eq]. }
  rewrite E in Hf. exact Hf.
Qed.

Lemma chat_details_listed w user cm c :
  session w = Some user ->
  ChatList.chat_details w user (cm, Some c) = Some (listed w c).
Proof.
  intros Hs. unfold ChatList.chat_details, listed. cbn [snd].
  rewrite Hs, select_other_member_none. cbn [data failed].
  now destruct (Chats.type c).
Qed.

(** [loadChats] for a signed-in caller, in terms of the caller's membership
    rows. *)
Lemma loadChats_signed_in w st user :
  session w = Some user ->
  ChatList.loadChats w st
  = match ChatList.all
            (map (fun cm => option_map (listed w) (chat_of (store w) cm))
                 (memberships (store w) user)) with
    | None => (ChatList.mkState (ChatList.chats st) false,
               Some ChatList.type_error)
    | Some l => (ChatList.mkState l false, None)
    end.
Proof.
  intros Hs. unfold ChatList.loadChats, select_memberships. rewrite Hs.
  cbn [error data ok]. rewrite own_rows_visible, map_map.
  replace (map (fun x => ChatList.chat_details w user (x, _))
               (memberships (store w) user))
    with (map (fun cm => option_map (listed w) (chat_of (store w) cm))
              (memberships (store w) user)); [reflexivity|].
  apply map_ext_in. intros cm Hin.
  rewrite (own_chat_visible _ _ _ Hin).
  destruct (chat_of (store w) cm) as [c|]; simpl;
    [now rewrite (chat_details_listed w user cm c Hs) | reflexivity].
Qed.

Lemma all_map_Some {A B} (f : A -> option B) l r :
  ChatList.all (map f l) = Some r -> Forall2 (fun x y => f x = Some y) l r.
Proof.
  revert r. induction l as [|x l IH]; simpl; intros r H.
  - injection H as <-. constructor.
  - destruct (f x) as [y|] eqn:E; [|discriminate].
    destruct (ChatList.all (map f l)) as [ys|]; [|discriminate].
    injection H as <-. constructor; auto.
Qed.

Lemma all_map_total {A B} (f : A -> option B) l :
  (forall x, In x l -> f x <> None) ->
  exists r, ChatList.all (map f l) = Some r.
Proof.
  induction l as [|x l IH]; simpl; intros H; [eexists; reflexivity|].
  destruct (f x) as [y|] eqn:E; [|exfalso; apply (H x); auto].
  destruct IH as [r Hr]; [intros z Hz; apply H; auto|].
  rewrite Hr. eexists; reflexivity.
Qed.

Lemma all_map_None {A B} (f : A -> option B) l x :
  In x l -> f x = None -> ChatList.all (map f l) = None.
Proof.
  induction l as [|y l IH]; simpl; [tauto|].
  intros [->|Hin] Hx; [now rewrite Hx|].
  destruct (f y); [|reflexivity]. now rewrite (IH Hin Hx).
Qed.

(** Every entry of a list that [loadChats] has just loaded comes from a
    membership row of the caller and the chat row it points to. *)
Lemma loadChats_entries w st user :
  session w = Some user ->
  snd (ChatList.loadChats w st) = None ->
  Forall2 (fun cm ch =>
             exists c, In c (chats (store w))
                       /\ Chats.id c = ChatMembers.chat_id cm
                       /\ ch = listed w c)
          (memberships (store w) user)
          (ChatList.chats (fst (ChatList.loadChats w st))).
Proof.
  intros Hs. rewrite (loadChats_signed_in w st user Hs).
  destruct (ChatList.all _) as [l|] eqn:E; [|discriminate]. intros _.
  cbn [fst ChatList.chats]. apply all_map_Some in E.
  eapply Forall2_impl; [|exact E]. intros cm ch H. simpl in H.
  destruct (chat_of (store w) cm) as [c|] eqn:Ec; [|discriminate].
  injection H as <-. destruct (chat_of_Some _ _ _ Ec) as [H1 H2].
  exists c. auto.
Qed.

Lemma Forall2_In_r {A B} (R : A -> B -> Prop) l r y :
  Forall2 R l r -> In y r -> exists x, In x l /\ R x y.
Proof.
  induction 1 as [|a b l r Hab _ IH]; simpl; [tauto|].
  intros [<-|Hin]; [exists a; auto|].
  destruct (IH Hin) as [x [Hx HR]]. exists x. auto.
Qed.

Lemma Forall2_map_eq {A B C} (f : A -> C) (g : B -> C) l r :
  Forall2 (fun x y => g y = f x) l r -> map g r = map f l.
Proof. induction 1; simpl; congruence. Qed.

End Listing.

(** With referential integrity [loadChats] succeeds, and its entries carry
    the chat ids of the caller's membership rows, in order. *)
Lemma loadChats_ids w st user :
  session w = Some user ->
  memberships_reference_chats (store w) ->
  snd (ChatList.loadChats w st) = None
  /\ ChatList.loading (fst (ChatList.loadChats w st)) = false
  /\ map ChatList.id (ChatList.chats (fst (ChatList.loadChats w st)))
     = map ChatMembers.chat_id (memberships (store w) user).
Proof.
  intros Hs Hfk.
  assert (Hok : snd (ChatList.loadChats w st) = None
                /\ ChatList.loading (fst (ChatList.loadChats w st)) = false).
  { rewrite (loadChats_signed_in w st user Hs).
    destruct (all_map_total
                (fun cm => option_map (listed w) (chat_of (store w) cm))
                (memberships (store w) user)) as [l E].
    - intros cm Hin. apply memberships_In in Hin. destruct Hin as [Hin _].
      destruct (Hfk cm Hin) as [c [Hc Hid]].
      destruct (chat_of (store w) cm) eqn:Ec; [discriminate|].
      exfalso. exact (chat_of_None _ _ Ec c Hc Hid).
    - rewrite E. split; reflexivity. }
  destruct Hok as [Hnone Hload]. split; [exact Hnone|]. split; [exact Hload|].
  apply Forall2_map_eq.
  eapply Forall2_impl; [|exact (loadChats_entries w st user Hs Hnone)].
  intros cm ch [c [_ [Hid ->]]]. exact Hid.
Qed.

Lemma isMember_In_membersOf db c u :
  Store.isMember db c u = true <-> In u (Store.membersOf db c).
Proof.
  rewrite isMember_filter, existsb_exists. unfold Store.membersOf.
  rewrite in_map_iff. split; intros [cm [H1 H2]]; exists cm.
  - apply N.eqb_eq in H2. auto.
  - split; [exact H2 | now apply N.eqb_eq].
Qed.

(** X16. With every membership row pointing to a chat of the store, a
    signed-in caller's [loadChats] succeeds and lists one entry per
    membership row of the caller, in the order of the [chat_members] table
    (no sorting by recency): a conversation is listed exactly when the
    caller is a member of it. *)
Theorem loadChats_lists_memberships :
  forall (w : World) (st : ChatList.State) (user : uuid),
    session w = Some user ->
    memberships_reference_chats (store w) ->
    let r := ChatList.loadChats w st in
    snd r = None
    /\ ChatList.loading (fst r) = false
    /\ map ChatList.id (ChatList.chats (fst r))
       = map ChatMembers.chat_id (memberships (store w) user)
    /\ forall C, In C (map ChatList.id (ChatList.chats (fst r)))
                 <-> Store.isMember (store w) C user = true.
Proof.
  intros w st user Hs Hfk r. subst r.
  destruct (loadChats_ids w st user Hs Hfk) as [H1 [H2 H3]].
  split; [exact H1|]. split; [exact H2|]. split; [exact H3|].
  intros C. rewrite H3. symmetry. apply isMember_memberships.
Qed.

Lemma loadChats_lists_memberships_witness :
  map ChatList.id
      (ChatList.chats (fst (ChatList.loadChats
                              (Sample.signed_in Sample.db_chat 2)
                              ChatList.initial)))
  = [10].
Proof.
  destruct (loadChats_lists_memberships
              (Sample.signed_in Sample.db_chat 2) ChatList.initial 2 eq_refl)
    as [_ [_ [H _]]].
  - intros cm [<-|[<-|[]]];
      exists (Chats.mk 10 dm None None (Some 1) 30 30);
      (split; [left|]; reflexivity).
  - exact H.
Defined.

(** X17. In a list [loadChats] has just loaded, the last message of an
    entry is absent exactly when the store holds no message of that
    conversation; otherwise it is the content and time of a stored message
    of the conversation that no other message of it is newer than. *)
Theorem loadChats_last_message :
  forall (w : World) (st : ChatList.State) (user : uuid) (ch : ChatList.Chat),
    session w = Some user ->
    snd (ChatList.loadChats w st) = None ->
    In ch (ChatList.chats (fst (ChatList.loadChats w st))) ->
    match ChatList.lastMessage ch with
    | None =>
        forall m, In m (messages (store w)) ->
                  Messages.chat_id m <> ChatList.id ch
    | Some (body, t) =>
        exists m,
          In m (messages (store w))
          /\ Messages.chat_id m = ChatList.id ch
          /\ Messages.content m = body
          /\ Messages.created_at m = t
          /\ forall m', In m' (messages (store w)) ->
                        Messages.chat_id m' = ChatList.id ch ->
                        Messages.created_at m' <= t
    end.
Proof.
  intros w st user ch Hs Hnone Hin.
  destruct (Forall2_In_r _ _ _ _ (loadChats_entries w st user Hs Hnone) Hin)
    as [cm [Hcm [c [Hc [Hid ->]]]]].
  cbn [listed ChatList.lastMessage ChatList.id]. rewrite Hs.
  apply select_last_message_member. rewrite Hid.
  apply isMember_memberships, in_map, Hcm.
Qed.

(** Bob's entry for conversation 10 shows "bye", sent at 60, the newest of
    its three messages. *)
Lemma loadChats_last_message_witness :
  exists m,
    In m (messages Sample.db_chat)
    /\ Messages.chat_id m = 10
    /\ Messages.content m = lit "bye"
    /\ Messages.created_at m = 60
    /\ forall m', In m' (messages Sample.db_chat) ->
                  Messages.chat_id m' = 10 -> Messages.created_at m' <= 60.
Proof.
  exact (loadChats_last_message
           (Sample.signed_in Sample.db_chat 2) ChatList.initial 2
           (ChatList.mkChat 10 dm None None 30 (Some (lit "bye", 60)) None)
           eq_refl eq_refl (or_introl eq_refl)).
Defined.

(** X18. In a list [loadChats] has just loaded no entry has a resolved
    counterpart, so every DM of the list is named "Unknown User" and has no
    avatar, whoever its other member is. *)
Theorem loadChats_dm_unknown_user :
  forall (w : World) (st : ChatList.State) (user : uuid) (ch : ChatList.Chat),
    session w = Some user ->
    snd (ChatList.loadChats w st) = None ->
    In ch (ChatList.chats (fst (ChatList.loadChats w st))) ->
    ChatList.otherUser ch = None
    /\ (ChatList.type ch = dm ->
        ChatList.getChatName ch = lit "Unknown User"
        /\ ChatList.getChatAvatar ch = None).
Proof.
  intros w st user ch Hs Hnone Hin.
  destruct (Forall2_In_r _ _ _ _ (loadChats_entries w st user Hs Hnone) Hin)
    as [cm [_ [c [_ [_ ->]]]]].
  split; [reflexivity|]. unfold ChatList.getChatName, ChatList.getChatAvatar.
  cbn [listed ChatList.type ChatList.otherUser]. intros ->. split; reflexivity.
Qed.

Lemma loadChats_dm_unknown_user_witness :
  ChatList.getChatName
    (ChatList.mkChat 10 dm None None 30 (Some (lit "bye", 60)) None)
  = lit "Unknown User".
Proof.
  destruct (loadChats_dm_unknown_user
              (Sample.signed_in Sample.db_chat 1) ChatList.initial 1
              (ChatList.mkChat 10 dm None None 30 (Some (lit "bye", 60)) None)
              eq_refl eq_refl (or_introl eq_refl)) as [_ H].
  exact (proj1 (H eq_refl)).
Defined.

(** ** What the policies of the migration let a caller do *)

Section Policies.

Import Store.

Lemma auth_uid_is_other auth u : auth <> Some u -> auth_uid_is auth u = false.
Proof.
  destruct auth as [a|]; simpl; [|reflexivity].
  intros H. apply N.eqb_neq. congruence.
Qed.

Lemma members_policy_no_session db m :
  existsb (fun cm => (ChatMembers.chat_id cm =? m)
                     && auth_uid_is None (ChatMembers.user_id cm))
          (chat_members db) = false.
Proof.
  induction (chat_members db) as [|cm l IH]; simpl; [reflexivity|].
  now rewrite andb_false_r.
Qed.

Lemma creator_policy_false db auth C :
  (forall c, In c (chats db) -> Chats.id c = C ->
             chats_select db auth c
             && auth_uid_is_opt auth (Chats.created_by c) = false) ->
  existsb (fun c => chats_select db auth c && (Chats.id c =? C)
                    && auth_uid_is_opt auth (Chats.created_by c))
          (chats db) = false.
Proof.
  induction (chats db) as [|c l IH]; simpl; intros H; [reflexivity|].
  rewrite IH by (intros x Hx; apply H; now right).
  destruct (Chats.id c =? C) eqn:E;
    [|now rewrite andb_false_r].
  apply N.eqb_eq in E. specialize (H c (or_introl eq_refl) E).
  rewrite andb_true_r, H. reflexivity.
Qed.


Lemma insert_message_other_sender db auth C sender content :
  auth <> Some sender ->
  Store.insert_message db auth C sender content
  = (failed (rls_violation "messages"), db).
Proof.
  intros H. unfold Store.insert_message, Store.messages_insert.
  cbn [Messages.sender_id]. now rewrite (auth_uid_is_other _ _ H).
Qed.

End Policies.

(** X20. The policy "Users can insert chat memberships" checks only that
    the row names the caller: any signed-in principal can insert themself
    into any existing conversation they are not yet in, and from then on
    the messages policy shows them every message of that conversation,
    where before it showed none. *)
Theorem anyone_can_join_any_chat :
  forall (db : DB) (u C : uuid),
    existsb (fun c => Chats.id c =? C) (chats db) = true ->
    Store.isMember db C u = false ->
    let r := Store.insert_chat_members db (Some u) [(C, u)] in
    Store.select_messages db (Some u) C = ok []
    /\ error (fst r) = None
    /\ Store.isMember (snd r) C u = true
    /\ messages (snd r) = messages db
    /\ forall m, In m (messages db) -> Messages.chat_id m = C ->
         exists l, data (Store.select_messages (snd r) (Some u) C) = Some l
                   /\ In m l.
Proof.
  intros db u C Hfk Hm r. subst r. split.
  - unfold Store.select_messages. f_equal.
    replace (filter _ (messages db)) with (@nil Messages.row); [reflexivity|].
    induction (messages db) as [|m l IH]; simpl; [reflexivity|].
    destruct (Messages.chat_id m =? C) eqn:E.
    + apply N.eqb_eq in E. rewrite messages_select_isMember, E, Hm. exact IH.
    + rewrite andb_false_r. exact IH.
  - unfold Store.insert_chat_members. cbn [Store.insert_chat_member_rows].
    unfold Store.insert_chat_member, Store.chat_members_insert.
    cbn [ChatMembers.user_id ChatMembers.chat_id Store.auth_uid_is].
    rewrite N.eqb_refl, Hfk, Hm.
    cbn [orb negb fst snd error ok profiles chats chat_members messages now].
    split; [reflexivity|].
    assert (Hnow : Store.isMember
                     (mkDB (profiles db) (chats db)
                           (chat_members db
                            ++ [ChatMembers.mk (Store.gen_random_uuid db) C u
                                               (now db)])
                           (messages db) (N.succ (now db))) C u = true).
    { rewrite isMember_after_insert, N.eqb_refl. apply orb_true_r. }
    split; [exact Hnow|]. split; [reflexivity|].
    intros m Hin Hc. eexists. split; [reflexivity|].
    apply order_by_created_at_In, filter_In. split; [exact Hin|].
    rewrite messages_select_isMember, Hc, Hnow. now rewrite N.eqb_refl.
Qed.

(** Carol is no member of conversation 10; she inserts herself and then
    reads "hello". *)
Lemma anyone_can_join_any_chat_witness :
  Store.select_messages Sample.db_chat (Some 3) 10 = ok []
  /\ exists l,
       data (Store.select_messages
               (snd (Store.insert_chat_members Sample.db_chat (Some 3)
                                               [(10, 3)]))
               (Some 3) 10) = Some l
       /\ In Sample.hello l.
Proof.
  destruct (anyone_can_join_any_chat Sample.db_chat 3 10 eq_refl eq_refl)
    as [H1 [_ [_ [_ H5]]]].
  split; [exact H1|]. apply H5; [left|]; reflexivity.
Defined.



(** X22. Nobody can write a message in somebody else's name: an insert
    into [messages] whose sender is not the signed-in caller is refused,
    whatever the conversation and the memberships, and leaves the store as
    it was. *)
Theorem no_message_in_another_name :
  forall (db : DB) (auth : option uuid) (C sender : uuid) (content : jstr),
    auth <> Some sender ->
    Store.insert_message db auth C sender content
    = (failed (rls_violation "messages"), db).
Proof.
  intros db auth C sender content H.
  now apply insert_message_other_sender.
Qed.

Lemma no_message_in_another_name_witness :
  Store.insert_message Sample.db_chat (Some 1) 10 2 (lit "not me")
  = (failed (rls_violation "messages"), Sample.db_chat).
Proof.
  apply (no_message_in_another_name Sample.db_chat (Some 1) 10 2
                                    (lit "not me")).
  discriminate.
Defined.

(** X23. Without a session the store shows no message, no membership and
    no chat, and accepts no chat, no membership row and no message; only
    profiles stay readable. *)
Theorem signed_out_store_access :
  forall (db : DB) (C u v : uuid) (t : chat_type) (n : option jstr)
         (content : jstr) (rows : list (uuid * uuid)),
    Store.select_messages db None C = ok []
    /\ Store.select_memberships db None u = ok []
    /\ Store.select_memberships_with_chat db None u = ok []
    /\ Store.select_chat db None C = failed no_single_row
    /\ Store.insert_chat db None t n u = (failed (rls_violation "chats"), db)
    /\ Store.insert_chat_members db None ((C, v) :: rows)
       = (failed (rls_violation "chat_members"), db)
    /\ Store.insert_message db None C u content
       = (failed (rls_violation "messages"), db)
    /\ Store.select_profile db None u = Store.select_profile db (Some v) u.
Proof.
  intros db C u v t n content rows.
  assert (Hown : filter (fun cm => Store.chat_members_select None cm
                                   && (ChatMembers.user_id cm =? u))
                        (chat_members db) = []).
  { induction (chat_members db) as [|cm l IH]; simpl; [reflexivity|exact IH]. }
  split; [|split; [|split; [|split; [|split; [|split; [|split]]]]]].
  - unfold Store.select_messages. f_equal.
    replace (filter _ (messages db)) with (@nil Messages.row); [reflexivity|].
    induction (messages db) as [|m l IH]; simpl; [reflexivity|].
    now rewrite messages_select_no_session.
  - unfold Store.select_memberships. now rewrite Hown.
  - unfold Store.select_memberships_with_chat. now rewrite Hown.
  - unfold Store.select_chat.
    replace (filter _ (chats db)) with (@nil Chats.row); [reflexivity|].
    induction (chats db) as [|c l IH]; simpl; [reflexivity|].
    unfold Store.chats_select. now rewrite members_policy_no_session.
  - reflexivity.
  - unfold Store.insert_chat_members. cbn [Store.insert_chat_member_rows].
    unfold Store.insert_chat_member, Store.chat_members_insert.
    cbn [Store.auth_uid_is orb].
    rewrite creator_policy_false; [reflexivity|].
    intros c _ _. destruct (Chats.created_by c); apply andb_false_r.
  - apply insert_message_other_sender. discriminate.
  - reflexivity.
Qed.

(** ** Registration: [handle_new_user] *)

Section Registration.

Import Signup.

Lemma hex_digit_username_char n :
  n < 16 -> is_username_char (hex_digit n) = true.
Proof.
  intros H. unfold is_username_char, hex_digit.
  destruct (n <? 10) eqn:E.
  - apply N.ltb_lt in E.
    assert (H1 : (48 <=? 48 + n) = true) by (apply N.leb_le; lia).
    assert (H2 : (48 + n <=? 57) = true) by (apply N.leb_le; lia).
    rewrite H1, H2. simpl. now rewrite orb_true_r.
  - apply N.ltb_ge in E.
    assert (H1 : (97 <=? 87 + n) = true) by (apply N.leb_le; lia).
    assert (H2 : (87 + n <=? 122) = true) by (apply N.leb_le; lia).
    rewrite H1, H2. reflexivity.
Qed.

Lemma hex_digits_length u i k : List.length (hex_digits u i k) = k.
Proof. revert i. induction k; simpl; intros i; [|rewrite IHk]; reflexivity. Qed.

Lemma hex_digits_username_chars u i k :
  forallb is_username_char (hex_digits u i k) = true.
Proof.
  revert i. induction k as [|k IH]; simpl; intros i; [reflexivity|].
  rewrite IH, hex_digit_username_char; [reflexivity|].
  apply N.mod_lt. discriminate.
Qed.

Lemma uuid_text_prefix u : firstn 8 (uuid_text u) = hex_digits u 0 8.
Proof.
  unfold uuid_text. cbn [hex_digits app firstn]. reflexivity.
Qed.

Lemma fallback_username_ok u :
  username_format (lit "user_" ++ firstn 8 (uuid_text u)) = true
  /\ username_length (lit "user_" ++ firstn 8 (uuid_text u)) = true.
Proof.
  rewrite uuid_text_prefix. split.
  - unfold username_format. rewrite forallb_app, hex_digits_username_chars.
    reflexivity.
  - unfold username_length.
    rewrite length_app, hex_digits_length. reflexivity.
Qed.

Lemma text_eqb_refl s : text_eqb s s = true.
Proof. induction s as [|c s IH]; simpl; [|rewrite N.eqb_refl]; auto. Qed.

Lemma no_profile_with_id db id :
  existsb (fun q => Profiles.id q =? id) (profiles db) = false ->
  filter (fun p => Store.profiles_select None p && (Profiles.id p =? id))
         (profiles db) = [].
Proof.
  induction (profiles db) as [|p l IH]; simpl; [reflexivity|].
  intros H. apply orb_false_elim in H. destruct H as [H1 H2].
  rewrite H1. auto.
Qed.

(** What an accepted registration tells about the store before it. *)
Lemma handle_new_user_accepted db db' id u d :
  handle_new_user db id u d = inr db' ->
  username_format (Profiles.username (new_profile db id u d)) = true
  /\ username_length (Profiles.username (new_profile db id u d)) = true
  /\ existsb (fun q => Profiles.id q =? id) (profiles db) = false
  /\ db' = mkDB (profiles db ++ [new_profile db id u d]) (chats db)
               (chat_members db) (messages db) (N.succ (now db)).
Proof.
  unfold handle_new_user. cbv zeta.
  set (p := new_profile db id u d).
  destruct (username_format (Profiles.username p)); [|discriminate].
  destruct (username_length (Profiles.username p)); [|discriminate].
  cbn [negb].
  destruct (existsb (fun q => Profiles.id q =? id) (profiles db));
    [discriminate|].
  destruct (existsb (fun q => text_eqb (Profiles.username q)
                                       (Profiles.username p)) (profiles db));
    [discriminate|].
  intros H. injection H as <-. auto.
Qed.

End Registration.

(** X24. The username the trigger falls back on, "user_" followed by the
    first eight characters of the key's text, always satisfies both
    [CHECK] constraints of [profiles.username]; so a registration without a
    username in its metadata is never refused by them. *)
Theorem fallback_username_passes_checks :
  forall (db : DB) (id : uuid) (display_name : option jstr),
    let name := lit "user_" ++ firstn 8 (Signup.uuid_text id) in
    Signup.username_format name = true
    /\ Signup.username_length name = true
    /\ List.length name = 13%nat
    /\ Signup.handle_new_user db id None display_name
       <> inl Signup.username_format_check
    /\ Signup.handle_new_user db id None display_name
       <> inl Signup.username_length_check.
Proof.
  intros db id d name. subst name.
  destruct (fallback_username_ok id) as [Hf Hl].
  split; [exact Hf|]. split; [exact Hl|]. split.
  - rewrite uuid_text_prefix, length_app, hex_digits_length. reflexivity.
  - unfold Signup.handle_new_user. cbn [Signup.new_profile Profiles.username
                                        Signup.coalesce].
    rewrite Hf, Hl. cbn [negb].
    destruct (existsb _ (profiles db)); [split; discriminate|].
    destruct (existsb _ (profiles db)); split; discriminate.
Qed.

(** X25. Register then look up: when the trigger's insert is accepted, the
    store has gained exactly the profile the trigger built, with a username
    that passes both checks and with "User" as display name when the
    metadata gave none, and every caller, signed in or not, resolves the
    new key to that profile. *)
Theorem handle_new_user_then_select_profile :
  forall (db db' : DB) (id : uuid) (username display_name : option jstr)
         (auth : option uuid),
    Signup.handle_new_user db id username display_name = inr db' ->
    let p := Signup.new_profile db id username display_name in
    profiles db' = profiles db ++ [p]
    /\ Store.select_profile db' auth id = ok p
    /\ Signup.username_format (Profiles.username p) = true
    /\ Signup.username_length (Profiles.username p) = true
    /\ (display_name = None -> Profiles.display_name p = lit "User")
    /\ chats db' = chats db
    /\ chat_members db' = chat_members db
    /\ messages db' = messages db.
Proof.
  intros db db' id u d auth H p. subst p.
  destruct (handle_new_user_accepted _ _ _ _ _ H) as [Hf [Hl [Hpk ->]]].
  cbn [profiles chats chat_members messages].
  split; [reflexivity|]. split; [|repeat split; auto].
  - unfold Store.select_profile. cbn [profiles]. rewrite filter_app.
    change (Store.profiles_select auth) with (Store.profiles_select None).
    rewrite (no_profile_with_id db id Hpk). simpl.
    now rewrite N.eqb_refl.
  - intros ->. reflexivity.
Qed.

Lemma handle_new_user_then_select_profile_witness :
  Store.select_profile
    (mkDB [Sample.alice;
           Profiles.mk 2 (lit "user_00000000") (lit "User") None 100 100]
          [] [] [] 101)
    (Some 1) 2
  = ok (Profiles.mk 2 (lit "user_00000000") (lit "User") None 100 100).
Proof.
  destruct (handle_new_user_then_select_profile
              (mkDB [Sample.alice] [] [] [] 100)
              (mkDB [Sample.alice;
                     Profiles.mk 2 (lit "user_00000000") (lit "User") None
                                 100 100]
                    [] [] [] 101)
              2 None None (Some 1) eq_refl) as [_ [H _]].
  exact H.
Defined.

(** X26. [COALESCE] replaces only a missing username: a username that is
    present in the metadata and fails a check (the empty string, a name with
    a space, one of two characters) is not replaced by the fallback, the
    trigger's insert is refused and no profile is stored. *)
Theorem handle_new_user_bad_username :
  forall (db : DB) (id : uuid) (s : jstr) (display_name : option jstr),
    Signup.username_format s = false \/ Signup.username_length s = false ->
    Signup.handle_new_user db id (Some s) display_name
    = inl Signup.username_format_check
    \/ Signup.handle_new_user db id (Some s) display_name
       = inl Signup.username_length_check.
Proof.
  intros db id s d H. unfold Signup.handle_new_user.
  cbn [Signup.new_profile Profiles.username Signup.coalesce].
  destruct (Signup.username_format s); [|left; reflexivity].
  destruct H as [H| ->]; [discriminate | right; reflexivity].
Qed.

Lemma handle_new_user_bad_username_witness :
  Signup.handle_new_user Sample.db_fresh 9 (Some []) None
  = inl Signup.username_format_check
  \/ Signup.handle_new_user Sample.db_fresh 9 (Some []) None
     = inl Signup.username_length_check.
Proof.
  apply (handle_new_user_bad_username Sample.db_fresh 9 [] None).
  left. reflexivity.
Defined.

(** X27. Two keys whose texts begin with the same eight characters get the
    same fallback username: once the first is registered without a
    username, registering the second without one fails on
    [UNIQUE(username)]. *)
Theorem fallback_username_collides :
  forall (db db1 : DB) (id1 id2 : uuid) (d1 d2 : option jstr),
    firstn 8 (Signup.uuid_text id1) = firstn 8 (Signup.uuid_text id2) ->
    id1 <> id2 ->
    existsb (fun q => Profiles.id q =? id2) (profiles db) = false ->
    Signup.handle_new_user db id1 None d1 = inr db1 ->
    Signup.handle_new_user db1 id2 None d2 = inl Signup.profiles_username_key.
Proof.
  intros db db1 id1 id2 d1 d2 Hpre Hne Hfree H1.
  destruct (handle_new_user_accepted _ _ _ _ _ H1) as [_ [_ [_ ->]]].
  unfold Signup.handle_new_user, Signup.new_profile.
  cbn [Profiles.username Signup.coalesce profiles].
  rewrite Hpre.
  destruct (fallback_username_ok id2) as [Hf Hl]. rewrite Hf, Hl.
  cbn [negb]. rewrite !existsb_app, Hfree.
  cbn [existsb Profiles.id Profiles.username orb].
  replace (id1 =? id2) with false by (symmetry; now apply N.eqb_neq).
  rewrite text_eqb_refl. cbn [orb]. now rewrite orb_true_r.
Qed.

Lemma fallback_username_collides_witness :
  Signup.handle_new_user
    (mkDB [Profiles.mk 4 (lit "user_00000000") (lit "User") None 100 100]
          [] [] [] 101)
    5 None None
  = inl Signup.profiles_username_key.
Proof.
  apply (fallback_username_collides (mkDB [] [] [] [] 100) _ 4 5 None None);
    try reflexivity.
  discriminate.
Defined.
